(** * Speech recognition front-end: provider dispatch, error
      normalisation and the transcript sink of [app.py].

    The three functions of [app.py] that carry logic, [transcribe_speech],
    [transcribe_mp3] and [save_transcription], are embedded as programs of a
    small monad that threads the interpreter state (temporary files, the
    function's local variables, the sequence of external calls made) and has
    Python's three ways of leaving a statement: falling through, [return],
    and a raised exception.

    Everything the functions delegate to (the [speech_recognition]
    recogniser, [pydub], [subprocess], the process environment, the wall
    clock, the file system) is outside the repository.  It is taken as a
    [world]: one outcome per external call, value or exception. *)

From Stdlib Require Import ZArith Ascii String.
From stdpp Require Import base tactics option list strings gmap.

Local Open Scope string_scope.

(** ** Python values and exceptions *)

(** The exceptions the code distinguishes in its [except] clauses.  All of
    them are subclasses of [Exception]; [OtherError] stands for every other
    subclass ([OSError], [AssertionError], [TypeError], ...), so a bare
    [except:] and [except Exception] catch the same exceptions here.  The
    argument is the text [str(e)] gives. *)
Inductive exn : Type :=
| WaitTimeoutError (msg : string)
| UnknownValueError (msg : string)
| RequestError (msg : string)
| UnboundLocalError (msg : string)
| OtherError (msg : string).

Definition str (e : exn) : string :=
  match e with
  | WaitTimeoutError m | UnknownValueError m | RequestError m
  | UnboundLocalError m | OtherError m => m
  end.

(** What an external call does: it returns a value or raises. *)
Inductive outcome (A : Type) : Type :=
| Returns (a : A)
| Raises (e : exn).
Arguments Returns {A} a.
Arguments Raises {A} e.

(** Decoded audio: samples and their rate.  The code never looks inside. *)
Record AudioData : Type := { frame_data : list Z; sample_rate : Z }.

(** The five recogniser methods, each with exactly the arguments the code
    passes.  A credential is what [os.getenv] returned: [None] when the
    variable is not set. *)
Inductive backend_call : Type :=
| recognize_google (audio : AudioData) (language : string)
| recognize_sphinx (audio : AudioData)
| recognize_wit (audio : AudioData) (key : option string) (language : string)
| recognize_bing (audio : AudioData) (key : option string) (language : string)
| recognize_houndify (audio : AudioData) (client_id client_key : option string)
    (language : string).

(** The external calls, in the order a run makes them. *)
Inductive event : Type :=
| StInfo (msg : string)
| MicrophoneEnter
| MicrophoneExit
| Listen
| Getenv (name : string)
| Recognize (c : backend_call)
| SubprocessRun
| FromMp3
| NamedTemporaryFile (path : string)
| ExportWav (path : string)
| AudioFileEnter (path : string)
| AudioFileExit (path : string)
| RecordAudio (path : string)
| Unlink (path : string).

(** The provider menu: label and identifier. *)
Definition SUPPORTED_APIS : list (string * string) :=
  [ ("Google Web Speech API", "google");
    ("Sphinx", "sphinx");
    ("Wit.ai", "wit");
    ("Microsoft Bing Voice Recognition", "bing");
    ("Houndify", "houndify") ].

(** The language menu: label and tag. *)
Definition SUPPORTED_LANGUAGES : list (string * string) :=
  [ ("English", "en-US");
    ("Spanish", "es-ES");
    ("French", "fr-FR");
    ("German", "de-DE");
    ("Italian", "it-IT");
    ("Portuguese", "pt-PT");
    ("Dutch", "nl-NL");
    ("Russian", "ru-RU");
    ("Chinese (Simplified)", "zh-CN");
    ("Japanese", "ja-JP") ].

(** A [datetime.datetime] value, fields as Python names them. *)
Record datetime : Type := {
  year : Z; month : Z; day : Z;
  hour : Z; minute : Z; second : Z
}.

(** ** The world outside the repository *)
Record world : Type := {
  (** [os.environ] *)
  environ : gmap string string;
  (** [sr.Microphone().__enter__()] *)
  microphone : outcome unit;
  (** [sr.Microphone().__exit__(...)], run when the [with] block is left *)
  microphone_exit : outcome unit;
  (** [st.info(msg)] *)
  page_info : string -> outcome unit;
  (** [r.listen(source)] *)
  listen : outcome AudioData;
  (** [r.recognize_*(...)] *)
  recognize : backend_call -> outcome string;
  (** [subprocess.run(['ffmpeg', '-version'], capture_output=True)] *)
  subprocess_run : outcome unit;
  (** [AudioSegment.from_mp3(file)] *)
  from_mp3 : string -> outcome AudioData;
  (** [tempfile.NamedTemporaryFile(suffix='.wav', delete=False)]: the name
      of the file it created *)
  named_temporary_file : outcome string;
  (** [audio.export(path, format='wav')] *)
  export : AudioData -> string -> outcome unit;
  (** [sr.AudioFile(path).__enter__()] *)
  audio_file : string -> outcome unit;
  (** [r.record(source)] *)
  record : string -> outcome AudioData;
  (** [os.unlink(path)] *)
  unlink : string -> outcome unit;
  (** [datetime.datetime.now()] *)
  now : datetime;
  (** [open(filename, 'w', encoding='utf-8')] *)
  open_w : string -> outcome unit;
  (** [f.write(text)] on the file opened under the given name *)
  write : string -> string -> outcome unit
}.

(** ** [strftime] *)

(** The character of the last decimal digit of [n]. *)
Definition digit (n : Z) : ascii := ascii_of_nat (48 + Z.to_nat (n mod 10)).

(** [n] in decimal on [width] digits, most significant first, padded with
    zeros (C's [%0<width>d] for [0 <= n < 10 ^ width]). *)
Fixpoint zero_padded (width : nat) (n : Z) : string :=
  match width with
  | 0 => EmptyString
  | S k => String (digit (n / 10 ^ Z.of_nat k)) (zero_padded k n)
  end.

(** The directives the code uses; any other character after [%] is kept
    with its percent sign. *)
Definition directive (c : ascii) (d : datetime) : string :=
  if Ascii.eqb c "Y" then zero_padded 4 (year d)
  else if Ascii.eqb c "m" then zero_padded 2 (month d)
  else if Ascii.eqb c "d" then zero_padded 2 (day d)
  else if Ascii.eqb c "H" then zero_padded 2 (hour d)
  else if Ascii.eqb c "M" then zero_padded 2 (minute d)
  else if Ascii.eqb c "S" then zero_padded 2 (second d)
  else String "%" (String c EmptyString).

(** [d.strftime(fmt)] *)
Fixpoint strftime (fmt : string) (d : datetime) : string :=
  match fmt with
  | EmptyString => EmptyString
  | String c rest =>
      if Ascii.eqb c "%" then
        match rest with
        | EmptyString => String c EmptyString
        | String c' rest' => directive c' d +:+ strftime rest' d
        end
      else String c (strftime rest d)
  end.

(** ** Interpreter state and the statement monad *)

Record state : Type := {
  (** temporary files present on disk *)
  files : gset string;
  (** external calls made so far, oldest first *)
  trace : list event;
  (** the local variable [temp_wav_path]; [None] while unbound *)
  temp_wav_path : option string;
  (** the local variable [text]; [None] while unbound *)
  text : option string
}.

(** A fresh call frame over the files already on disk. *)
Definition enter (fs : gset string) : state :=
  {| files := fs; trace := []; temp_wav_path := None; text := None |}.

(** How a statement ends: it falls through with a value, executes a
    [return], or raises. *)
Inductive completion (A : Type) : Type :=
| Normal (a : A)
| Return (v : option string)
| Raise (e : exn).
Arguments Normal {A} a.
Arguments Return {A} v.
Arguments Raise {A} e.

Definition M (A : Type) : Type := state -> completion A * state.

Definition ret {A} (a : A) : M A := fun s => (Normal a, s).

Definition bind {A B} (m : M A) (k : A -> M B) : M B :=
  fun s =>
    match m s with
    | (Normal a, s') => k a s'
    | (Return v, s') => (Return v, s')
    | (Raise e, s') => (Raise e, s')
    end.

Declare Scope py_scope.
Delimit Scope py_scope with py.
Notation "x <- m ;; k" := (bind m (fun x => k))
  (at level 100, m at next level, right associativity) : py_scope.
Notation "m ;; k" := (bind m (fun _ => k))
  (at level 100, right associativity) : py_scope.
Local Open Scope py_scope.

(** [return v] *)
Definition return_ {A} (v : string) : M A := fun s => (Return (Some v), s).

(** [raise e] *)
Definition raise {A} (e : exn) : M A := fun s => (Raise e, s).

Definition log (ev : event) : M unit :=
  fun s => (Normal tt,
            {| files := files s; trace := trace s ++ [ev];
               temp_wav_path := temp_wav_path s; text := text s |}).

(** An external call: it is recorded, then returns or raises as the world
    says. *)
Definition ext {A} (ev : event) (o : outcome A) : M A :=
  log ev ;;
  match o with
  | Returns a => ret a
  | Raises e => raise e
  end.

(** [try: body except ...:].  [handlers e] is the body of the first clause
    that matches [e], [None] when no clause does and [e] propagates. *)
Definition try_except {A} (body : M A) (handlers : exn -> option (M A)) : M A :=
  fun s =>
    match body s with
    | (Raise e, s') =>
        match handlers e with
        | Some h => h s'
        | None => (Raise e, s')
        end
    | r => r
    end.

(** The release half of a [with] statement: [exit] runs however [body]
    ends, and [body]'s completion stands unless [exit] itself returns or
    raises. *)
Definition finally {A} (body : M A) (exit : M unit) : M A :=
  fun s =>
    match body s with
    | (c, s') =>
        match exit s' with
        | (Normal _, s'') => (c, s'')
        | (Return v, s'') => (Return v, s'')
        | (Raise e, s'') => (Raise e, s'')
        end
    end.

(** [with enter as x: body] *)
Definition with_ {A B} (enter : M A) (exit : M unit) (body : A -> M B) : M B :=
  x <- enter ;; finally (body x) exit.

(** What the caller of a function sees. *)
Inductive result : Type :=
| Returned (v : option string)
| Raised (e : exn).

(** Running a function body in a fresh frame; falling off the end returns
    [None]. *)
Definition call (body : M unit) (fs : gset string) : result * state :=
  match body (enter fs) with
  | (Normal _, s) => (Returned None, s)
  | (Return v, s) => (Returned v, s)
  | (Raise e, s) => (Raised e, s)
  end.

(** ** Primitives over the state *)

(** [text = v] *)
Definition set_text (v : string) : M unit :=
  fun s => (Normal tt,
            {| files := files s; trace := trace s;
               temp_wav_path := temp_wav_path s; text := Some v |}).

(** [temp_wav_path = p] *)
Definition set_temp_wav_path (p : string) : M unit :=
  fun s => (Normal tt,
            {| files := files s; trace := trace s;
               temp_wav_path := Some p; text := text s |}).

(** ['temp_wav_path' in locals()], with the value when bound *)
Definition get_temp_wav_path : M (option string) :=
  fun s => (Normal (temp_wav_path s), s).

(** The error Python raises on reading an unbound local; the wording of its
    message differs between interpreter versions. *)
Definition unbound_local (name : string) : exn :=
  UnboundLocalError
    ("cannot access local variable '" +:+ name +:+
     "' where it is not associated with a value").
Definition unbound_text : exn := unbound_local "text".

(** [return text]: reading [text] while it is unbound raises. *)
Definition return_text {A} : M A :=
  fun s =>
    match text s with
    | Some v => (Return (Some v), s)
    | None => (Raise unbound_text, s)
    end.

Definition create_file (p : string) : M unit :=
  fun s => (Normal tt,
            {| files := {[p]} ∪ files s; trace := trace s;
               temp_wav_path := temp_wav_path s; text := text s |}).

Definition remove_file (p : string) : M unit :=
  fun s => (Normal tt,
            {| files := files s ∖ {[p]}; trace := trace s;
               temp_wav_path := temp_wav_path s; text := text s |}).

Section Program.
Variable w : world.

(** [os.getenv(name)] *)
Definition getenv (name : string) : M (option string) :=
  log (Getenv name) ;; ret (environ w !! name).

(** [st.info(msg)] *)
Definition st_info (msg : string) : M unit :=
  ext (StInfo msg) (page_info w msg).

(** [os.unlink(p)]: the file is gone when the call returns. *)
Definition os_unlink (p : string) : M unit :=
  ext (Unlink p) (unlink w p) ;; remove_file p.

(** [tempfile.NamedTemporaryFile(suffix='.wav', delete=False)]: the file
    exists from the moment the call returns. *)
Definition NamedTemporaryFile_enter : M string :=
  match named_temporary_file w with
  | Returns p => log (NamedTemporaryFile p) ;; create_file p ;; ret p
  | Raises e => raise e
  end.

(** ** Messages *)

Definition nl : string := String (ascii_of_nat 10) EmptyString.

(** *** [transcribe_speech] *)
Definition no_speech_message : string :=
  "No speech detected. Please try speaking again.".
Definition listen_unintelligible_message : string :=
  "Could not understand audio. Please try speaking more clearly.".
Definition microphone_request_message (e : exn) : string :=
  "Could not request results from microphone; " +:+ str e.
Definition recording_unexpected_message (e : exn) : string :=
  "An unexpected error occurred while recording: " +:+ str e.
Definition wit_unintelligible_message : string :=
  "Could not understand audio using Wit.ai".
Definition wit_credentials_message : string :=
  "Could not request results from Wit.ai service. Please check your API key.".
Definition bing_unintelligible_message : string :=
  "Could not understand audio using Microsoft Bing".
Definition bing_credentials_message : string :=
  "Could not request results from Microsoft Bing service. Please check your API key.".
Definition houndify_unintelligible_message : string :=
  "Could not understand audio using Houndify".
Definition houndify_credentials_message : string :=
  "Could not request results from Houndify service. Please check your API credentials.".
Definition speech_unintelligible_message : string :=
  "Sorry, I did not understand what you said. Please try speaking more clearly.".
Definition transport_message (api : string) (e : exn) : string :=
  "Could not request results from " +:+ api +:+ " service; " +:+ str e.
Definition transcription_unexpected_message (e : exn) : string :=
  "An unexpected error occurred during transcription: " +:+ str e.

(** *** [transcribe_mp3] *)
Definition ffmpeg_missing_message : string :=
  "Error: FFmpeg is not installed. Please install FFmpeg from: https://ffmpeg.org/download.html".
Definition mp3_unintelligible_message : string :=
  "Sorry, I did not understand what you said.".
Definition mp3_error_message (e : exn) : string :=
  "Error processing MP3 file: " +:+ str e +:+ nl +:+
  "Please make sure FFmpeg is properly installed and added to your system PATH.".

(** ** [transcribe_speech] *)

(** Lines 52-93: the provider branches and [return text]. *)
Definition speech_select_api (api language : string) (audio_text : AudioData)
  : M unit :=
  (if String.eqb api "google" then
     t <- ext (Recognize (recognize_google audio_text language))
              (recognize w (recognize_google audio_text language)) ;;
     set_text t
   else if String.eqb api "sphinx" then
     t <- ext (Recognize (recognize_sphinx audio_text))
              (recognize w (recognize_sphinx audio_text)) ;;
     set_text t
   else if String.eqb api "wit" then
     try_except
       (key <- getenv "WIT_AI_KEY" ;;
        t <- ext (Recognize (recognize_wit audio_text key language))
                 (recognize w (recognize_wit audio_text key language)) ;;
        set_text t)
       (fun e =>
          match e with
          | UnknownValueError _ =>
              Some (return_ wit_unintelligible_message)
          | RequestError _ =>
              Some (return_ wit_credentials_message)
          | _ => None
          end)
   else if String.eqb api "bing" then
     try_except
       (key <- getenv "BING_KEY" ;;
        t <- ext (Recognize (recognize_bing audio_text key language))
                 (recognize w (recognize_bing audio_text key language)) ;;
        set_text t)
       (fun e =>
          match e with
          | UnknownValueError _ =>
              Some (return_ bing_unintelligible_message)
          | RequestError _ =>
              Some (return_ bing_credentials_message)
          | _ => None
          end)
   else if String.eqb api "houndify" then
     try_except
       (client_id <- getenv "HOUNDIFY_CLIENT_ID" ;;
        client_key <- getenv "HOUNDIFY_CLIENT_KEY" ;;
        t <- ext (Recognize (recognize_houndify audio_text client_id client_key language))
                 (recognize w (recognize_houndify audio_text client_id client_key language)) ;;
        set_text t)
       (fun e =>
          match e with
          | UnknownValueError _ =>
              Some (return_ houndify_unintelligible_message)
          | RequestError _ =>
              Some (return_ houndify_credentials_message)
          | _ => None
          end)
   else ret tt) ;;
  return_text.

(** Lines 35-99: the body of the [with sr.Microphone() as source:] block. *)
Definition speech_with_body (api language : string) : M unit :=
  st_info "Speak now..." ;;
  audio_text <-
    try_except
      (a <- ext Listen (listen w) ;;
       st_info "Transcribing..." ;;
       ret a)
      (fun e =>
         Some match e with
              | WaitTimeoutError _ => return_ no_speech_message
              | UnknownValueError _ => return_ listen_unintelligible_message
              | RequestError _ => return_ (microphone_request_message e)
              | _ => return_ (recording_unexpected_message e)
              end) ;;
  try_except
    (speech_select_api api language audio_text)
    (fun e =>
       Some match e with
            | UnknownValueError _ => return_ speech_unintelligible_message
            | RequestError _ => return_ (transport_message api e)
            | _ => return_ (transcription_unexpected_message e)
            end).

(** Lines 35-99.  Acquiring the microphone, the first page call and the
    release of the microphone stand outside every [try]: what they raise
    leaves the function. *)
Definition transcribe_speech_body (api language : string) : M unit :=
  with_ (ext MicrophoneEnter (microphone w))
    (ext MicrophoneExit (microphone_exit w))
    (fun _ => speech_with_body api language).

Definition transcribe_speech (api language : string) (fs : gset string)
  : result * state :=
  call (transcribe_speech_body api language) fs.

(** ** [transcribe_mp3] *)

(** Lines 126-152: the provider branches and [return text]. *)
Definition mp3_select_api (api language : string) (audio_data : AudioData)
  : M unit :=
  (if String.eqb api "google" then
     t <- ext (Recognize (recognize_google audio_data language))
              (recognize w (recognize_google audio_data language)) ;;
     set_text t
   else if String.eqb api "sphinx" then
     t <- ext (Recognize (recognize_sphinx audio_data))
              (recognize w (recognize_sphinx audio_data)) ;;
     set_text t
   else if String.eqb api "wit" then
     key <- getenv "WIT_AI_KEY" ;;
     t <- ext (Recognize (recognize_wit audio_data key language))
              (recognize w (recognize_wit audio_data key language)) ;;
     set_text t
   else if String.eqb api "bing" then
     key <- getenv "BING_KEY" ;;
     t <- ext (Recognize (recognize_bing audio_data key language))
              (recognize w (recognize_bing audio_data key language)) ;;
     set_text t
   else if String.eqb api "houndify" then
     client_id <- getenv "HOUNDIFY_CLIENT_ID" ;;
     client_key <- getenv "HOUNDIFY_CLIENT_KEY" ;;
     t <- ext (Recognize (recognize_houndify audio_data client_id client_key language))
              (recognize w (recognize_houndify audio_data client_id client_key language)) ;;
     set_text t
   else ret tt) ;;
  return_text.

(** Lines 103-162: the body of the outer [try]. *)
Definition mp3_try_body (file api language : string) : M unit :=
  (* Check if ffmpeg is installed *)
  try_except
    (ext SubprocessRun (subprocess_run w))
    (fun _ => Some (return_ ffmpeg_missing_message)) ;;
  (* Convert MP3 to WAV *)
  audio <- ext FromMp3 (from_mp3 w file) ;;
  (* Create temporary WAV file *)
  with_ NamedTemporaryFile_enter (ret tt)
    (fun name =>
       set_temp_wav_path name ;;
       ext (ExportWav name) (export w audio name)) ;;
  path <- get_temp_wav_path ;;
  match path with
  | None => raise (unbound_local "temp_wav_path") (* not reached: bound above *)
  | Some temp_wav_path =>
      (* Read the WAV file *)
      with_ (ext (AudioFileEnter temp_wav_path) (audio_file w temp_wav_path))
        (log (AudioFileExit temp_wav_path))
        (fun _ =>
           audio_data <- ext (RecordAudio temp_wav_path) (record w temp_wav_path) ;;
           try_except
             (mp3_select_api api language audio_data)
             (fun e =>
                match e with
                | UnknownValueError _ => Some (return_ mp3_unintelligible_message)
                | RequestError _ => Some (return_ (transport_message api e))
                | _ => None
                end)) ;;
      (* Clean up temporary file *)
      try_except (os_unlink temp_wav_path) (fun _ => Some (ret tt))
  end.

Definition transcribe_mp3_body (file api language : string) : M unit :=
  try_except
    (mp3_try_body file api language)
    (fun e =>
       Some (
         (* Try to clean up the temporary file if it exists *)
         try_except
           (path <- get_temp_wav_path ;;
            match path with
            | Some p => os_unlink p
            | None => ret tt
            end)
           (fun _ => Some (ret tt)) ;;
         return_ (mp3_error_message e))).

Definition transcribe_mp3 (file api language : string) (fs : gset string)
  : result * state :=
  call (transcribe_mp3_body file api language) fs.

(** ** [save_transcription] *)

(** Lines 178-180: the value of [filename] after the [if not filename:]
    block.  [None] and the empty string are the falsy arguments. *)
Definition save_filename (filename : option string) : string :=
  match filename with
  | Some (String c rest) => String c rest
  | Some EmptyString | None =>
      let timestamp := strftime "%Y%m%d_%H%M%S" (now w) in
      "transcription_" +:+ timestamp +:+ ".txt"
  end.

Definition saved_message (filename : string) : string :=
  "Transcription saved successfully to: " +:+ filename.
Definition save_error_message (e : exn) : string :=
  "Error saving transcription: " +:+ str e.

(** The files on disk are a map from name to content.  Opening with mode
    ['w'] creates or truncates the file. *)
Definition save_transcription (text : string) (filename : option string)
    (disk : gmap string string) : string * gmap string string :=
  let filename := save_filename filename in
  match open_w w filename with
  | Raises e => (save_error_message e, disk)
  | Returns _ =>
      match write w filename text with
      | Raises e => (save_error_message e, <[filename := ""]> disk)
      | Returns _ => (saved_message filename, <[filename := text]> disk)
      end
  end.

End Program.

(** ** [main] *)

(** What the Streamlit widgets hand back during one run of the script:
    the two select boxes, the buttons in the order the script reaches
    them, and the uploaded file, [None] when there is none.  The widget
    calls themselves are taken not to raise. *)
Record widgets : Type := {
  selectbox_api : string;
  selectbox_language : string;
  button_start_recording : bool;
  button_save_recording : bool;
  file_uploader : option string;
  button_transcribe_mp3 : bool;
  button_save_mp3 : bool
}.

(** What the script puts on the page. *)
Inductive element : Type :=
| StTitle (body : string)
| StWrite (args : list (option string)).

(** The state one run of the script works on: temporary files, the files
    of the working directory with their content, the external calls the
    transcription functions made, and the page. *)
Record session : Type := {
  s_files : gset string;
  s_disk : gmap string string;
  s_calls : list event;
  s_page : list element
}.

(** [d[k]] on a dictionary literal; a missing key raises [KeyError]. *)
Definition subscript (d : list (string * string)) (k : string) : outcome string :=
  match (list_to_map d : gmap string string) !! k with
  | Some v => Returns v
  | None => Raises (OtherError ("'" +:+ k +:+ "'"))
  end.

(** [st.write(...)] *)
Definition st_write (args : list (option string)) (s : session) : session :=
  {| s_files := s_files s; s_disk := s_disk s; s_calls := s_calls s;
     s_page := s_page s ++ [StWrite args] |}.

(** The effects of a call of [transcribe_speech] or [transcribe_mp3] that
    ended in state [st]. *)
Definition ran (st : state) (s : session) : session :=
  {| s_files := files st; s_disk := s_disk s;
     s_calls := s_calls s ++ trace st; s_page := s_page s |}.

(** [save_transcription(text)] on the value a transcription function
    returned.  [f.write(None)] raises [TypeError] inside the [try], after
    the file was opened. *)
Definition save_text (w : world) (text : option string)
    (disk : gmap string string) : string * gmap string string :=
  match text with
  | Some t => save_transcription w t None disk
  | None =>
      let filename := save_filename w None in
      match open_w w filename with
      | Raises e => (save_error_message e, disk)
      | Returns _ =>
          (save_error_message
             (OtherError "write() argument must be str, not None"),
           <[filename := ""]> disk)
      end
  end.

(** Lines 220-222 and 237-239: the save button and what it triggers. *)
Definition save_button (w : world) (pressed : bool) (text : option string)
    (s : session) : session :=
  if pressed then
    let (result, disk) := save_text w text (s_disk s) in
    st_write [Some result]
      {| s_files := s_files s; s_disk := disk; s_calls := s_calls s;
         s_page := s_page s |}
  else s.

(** Lines 210-222: the "Record Audio" tab.  The result is the exception
    that left the block, if any, and the session. *)
Definition tab1 (w : world) (ui : widgets) (s : session) : option exn * session :=
  let s := st_write [Some "Click on the microphone to start speaking:"] s in
  if button_start_recording ui then
    match subscript SUPPORTED_APIS (selectbox_api ui) with
    | Raises e => (Some e, s)
    | Returns api =>
        match subscript SUPPORTED_LANGUAGES (selectbox_language ui) with
        | Raises e => (Some e, s)
        | Returns language =>
            match transcribe_speech w api language (s_files s) with
            | (Raised e, st) => (Some e, ran st s)
            | (Returned text, st) =>
                let s := st_write [Some "Transcription: "; text] (ran st s) in
                (None, save_button w (button_save_recording ui) text s)
            end
        end
    end
  else (None, s).

(** Lines 224-239: the "Upload MP3" tab. *)
Definition tab2 (w : world) (ui : widgets) (s : session) : option exn * session :=
  let s := st_write [Some "Upload an MP3 file to transcribe:"] s in
  match file_uploader ui with
  | Some uploaded_file =>
      if button_transcribe_mp3 ui then
        match subscript SUPPORTED_APIS (selectbox_api ui) with
        | Raises e => (Some e, s)
        | Returns api =>
            match subscript SUPPORTED_LANGUAGES (selectbox_language ui) with
            | Raises e => (Some e, s)
            | Returns language =>
                match transcribe_mp3 w uploaded_file api language (s_files s) with
                | (Raised e, st) => (Some e, ran st s)
                | (Returned text, st) =>
                    let s := st_write [Some "Transcription: "; text] (ran st s) in
                    (None, save_button w (button_save_mp3 ui) text s)
                end
            end
        end
      else (None, s)
  | None => (None, s)
  end.

(** [main()], started on the temporary files [fs] and the working
    directory [disk].  [w1] is the world while the first tab runs, [w2]
    the world while the second tab runs. *)
Definition main (w1 w2 : world) (ui : widgets) (fs : gset string)
    (disk : gmap string string) : option exn * session :=
  let s :=
    {| s_files := fs; s_disk := disk; s_calls := [];
       s_page := [StTitle "Speech Recognition App";
                  StWrite [Some "Choose your input method:"]] |} in
  match tab1 w1 ui s with
  | (Some e, s) => (Some e, s)
  | (None, s) => tab2 w2 ui s
  end.

(** ** Concrete worlds *)

(** A short recording. *)
Definition clip : AudioData :=
  {| frame_data := [0; 12; -7; 3]%Z; sample_rate := 16000 |}.

(** 9 March 2024, 12:00:05. *)
Definition noon : datetime :=
  {| year := 2024; month := 3; day := 9; hour := 12; minute := 0; second := 5 |}%Z.

(** A host where every external call succeeds, no credential is set, and
    the recogniser answers [answer]. *)
Definition studio (answer : backend_call -> outcome string) : world :=
  {| environ := ∅;
     microphone := Returns tt;
     microphone_exit := Returns tt;
     page_info := fun _ => Returns tt;
     listen := Returns clip;
     recognize := answer;
     subprocess_run := Returns tt;
     from_mp3 := fun _ => Returns clip;
     named_temporary_file := Returns "/tmp/tmpk3v9.wav";
     export := fun _ _ => Returns tt;
     audio_file := fun _ => Returns tt;
     record := fun _ => Returns clip;
     unlink := fun _ => Returns tt;
     now := noon;
     open_w := fun _ => Returns tt;
     write := fun _ _ => Returns tt |}.

(** A recogniser that answers every call with the transcript [t]. *)
Definition hears (t : string) : backend_call -> outcome string :=
  fun _ => Returns t.

(** A recogniser that raises [e] on every call. *)
Definition fails (e : exn) : backend_call -> outcome string :=
  fun _ => Raises e.

(** The host without the codec tool: running [ffmpeg] raises. *)
Definition no_codec : world :=
  {| environ := ∅;
     microphone := Returns tt;
     microphone_exit := Returns tt;
     page_info := fun _ => Returns tt;
     listen := Returns clip;
     recognize := hears "hello world";
     subprocess_run := Raises (OtherError "[Errno 2] No such file or directory: 'ffmpeg'");
     from_mp3 := fun _ => Returns clip;
     named_temporary_file := Returns "/tmp/tmpk3v9.wav";
     export := fun _ _ => Returns tt;
     audio_file := fun _ => Returns tt;
     record := fun _ => Returns clip;
     unlink := fun _ => Returns tt;
     now := noon;
     open_w := fun _ => Returns tt;
     write := fun _ _ => Returns tt |}.

(** [w] with the process environment [env]. *)
Definition with_environ (env : gmap string string) (w : world) : world :=
  {| environ := env;
     microphone := microphone w;
     microphone_exit := microphone_exit w;
     page_info := page_info w;
     listen := listen w;
     recognize := recognize w;
     subprocess_run := subprocess_run w;
     from_mp3 := from_mp3 w;
     named_temporary_file := named_temporary_file w;
     export := export w;
     audio_file := audio_file w;
     record := record w;
     unlink := unlink w;
     now := now w;
     open_w := open_w w;
     write := write w |}.

(** [w] with [o] for the outcome of acquiring the microphone. *)
Definition with_microphone (o : outcome unit) (w : world) : world :=
  {| environ := environ w;
     microphone := o;
     microphone_exit := microphone_exit w;
     page_info := page_info w;
     listen := listen w;
     recognize := recognize w;
     subprocess_run := subprocess_run w;
     from_mp3 := from_mp3 w;
     named_temporary_file := named_temporary_file w;
     export := export w;
     audio_file := audio_file w;
     record := record w;
     unlink := unlink w;
     now := now w;
     open_w := open_w w;
     write := write w |}.

(** [w] with [o] for the outcome of releasing the microphone. *)
Definition with_microphone_exit (o : outcome unit) (w : world) : world :=
  {| environ := environ w;
     microphone := microphone w;
     microphone_exit := o;
     page_info := page_info w;
     listen := listen w;
     recognize := recognize w;
     subprocess_run := subprocess_run w;
     from_mp3 := from_mp3 w;
     named_temporary_file := named_temporary_file w;
     export := export w;
     audio_file := audio_file w;
     record := record w;
     unlink := unlink w;
     now := now w;
     open_w := open_w w;
     write := write w |}.

(** [w] with [f] for [st.info]. *)
Definition with_page_info (f : string -> outcome unit) (w : world) : world :=
  {| environ := environ w;
     microphone := microphone w;
     microphone_exit := microphone_exit w;
     page_info := f;
     listen := listen w;
     recognize := recognize w;
     subprocess_run := subprocess_run w;
     from_mp3 := from_mp3 w;
     named_temporary_file := named_temporary_file w;
     export := export w;
     audio_file := audio_file w;
     record := record w;
     unlink := unlink w;
     now := now w;
     open_w := open_w w;
     write := write w |}.

(** [w] with [o] for the outcome of listening. *)
Definition with_listen (o : outcome AudioData) (w : world) : world :=
  {| environ := environ w;
     microphone := microphone w;
     microphone_exit := microphone_exit w;
     page_info := page_info w;
     listen := o;
     recognize := recognize w;
     subprocess_run := subprocess_run w;
     from_mp3 := from_mp3 w;
     named_temporary_file := named_temporary_file w;
     export := export w;
     audio_file := audio_file w;
     record := record w;
     unlink := unlink w;
     now := now w;
     open_w := open_w w;
     write := write w |}.

(** [w] with the decoder [f]. *)
Definition with_from_mp3 (f : string -> outcome AudioData) (w : world) : world :=
  {| environ := environ w;
     microphone := microphone w;
     microphone_exit := microphone_exit w;
     page_info := page_info w;
     listen := listen w;
     recognize := recognize w;
     subprocess_run := subprocess_run w;
     from_mp3 := f;
     named_temporary_file := named_temporary_file w;
     export := export w;
     audio_file := audio_file w;
     record := record w;
     unlink := unlink w;
     now := now w;
     open_w := open_w w;
     write := write w |}.

(** [w] with [f] for opening an audio file. *)
Definition with_audio_file (f : string -> outcome unit) (w : world) : world :=
  {| environ := environ w;
     microphone := microphone w;
     microphone_exit := microphone_exit w;
     page_info := page_info w;
     listen := listen w;
     recognize := recognize w;
     subprocess_run := subprocess_run w;
     from_mp3 := from_mp3 w;
     named_temporary_file := named_temporary_file w;
     export := export w;
     audio_file := f;
     record := record w;
     unlink := unlink w;
     now := now w;
     open_w := open_w w;
     write := write w |}.

(** [w] with [f] for [os.unlink]. *)
Definition with_unlink (f : string -> outcome unit) (w : world) : world :=
  {| environ := environ w;
     microphone := microphone w;
     microphone_exit := microphone_exit w;
     page_info := page_info w;
     listen := listen w;
     recognize := recognize w;
     subprocess_run := subprocess_run w;
     from_mp3 := from_mp3 w;
     named_temporary_file := named_temporary_file w;
     export := export w;
     audio_file := audio_file w;
     record := record w;
     unlink := f;
     now := now w;
     open_w := open_w w;
     write := write w |}.

(** [w] with the clock reading [d]. *)
Definition with_now (d : datetime) (w : world) : world :=
  {| environ := environ w;
     microphone := microphone w;
     microphone_exit := microphone_exit w;
     page_info := page_info w;
     listen := listen w;
     recognize := recognize w;
     subprocess_run := subprocess_run w;
     from_mp3 := from_mp3 w;
     named_temporary_file := named_temporary_file w;
     export := export w;
     audio_file := audio_file w;
     record := record w;
     unlink := unlink w;
     now := d;
     open_w := open_w w;
     write := write w |}.

(** [w] with [f] for opening a file for writing. *)
Definition with_open_w (f : string -> outcome unit) (w : world) : world :=
  {| environ := environ w;
     microphone := microphone w;
     microphone_exit := microphone_exit w;
     page_info := page_info w;
     listen := listen w;
     recognize := recognize w;
     subprocess_run := subprocess_run w;
     from_mp3 := from_mp3 w;
     named_temporary_file := named_temporary_file w;
     export := export w;
     audio_file := audio_file w;
     record := record w;
     unlink := unlink w;
     now := now w;
     open_w := f;
     write := write w |}.

(** [w] with [f] for writing to an open file. *)
Definition with_write (f : string -> string -> outcome unit) (w : world) : world :=
  {| environ := environ w;
     microphone := microphone w;
     microphone_exit := microphone_exit w;
     page_info := page_info w;
     listen := listen w;
     recognize := recognize w;
     subprocess_run := subprocess_run w;
     from_mp3 := from_mp3 w;
     named_temporary_file := named_temporary_file w;
     export := export w;
     audio_file := audio_file w;
     record := record w;
     unlink := unlink w;
     now := now w;
     open_w := open_w w;
     write := f |}.

(** A visitor who picks Sphinx and French, presses "Start Recording" and
    uploads nothing. *)
Definition visitor : widgets :=
  {| selectbox_api := "Sphinx";
     selectbox_language := "French";
     button_start_recording := true;
     button_save_recording := false;
     file_uploader := None;
     button_transcribe_mp3 := false;
     button_save_mp3 := false |}.

(** An environment whose keys are set, to values the services reject. *)
Definition expired_key : gmap string string :=
  {[ "WIT_AI_KEY" := "0123456789ABCDEF"; "BING_KEY" := "fedcba9876543210" ]}.

(** The request failure a service reports for a key it does not accept. *)
Definition unauthorized : exn :=
  RequestError "recognition request failed: Unauthorized".

(** A recogniser that rejects every call with an assertion failure, as a
    backend does when handed a key that is not a string. *)
Definition rejects_key : backend_call -> outcome string :=
  fails (OtherError "key must be a string").

(** * Vocabulary of the statements *)

(** ** Every path of [transcribe_mp3] *)

(** The strings [transcribe_mp3] can return, each with the outcome of the
    world that leads to it. *)
Inductive mp3_returns (w : world) (api : string) : string -> Prop :=
| mp3_ffmpeg_missing e :
    subprocess_run w = Raises e ->
    mp3_returns w api ffmpeg_missing_message
| mp3_transcript c t :
    recognize w c = Returns t ->
    mp3_returns w api t
| mp3_unintelligible c m :
    recognize w c = Raises (UnknownValueError m) ->
    mp3_returns w api mp3_unintelligible_message
| mp3_transport c m :
    recognize w c = Raises (RequestError m) ->
    mp3_returns w api (transport_message api (RequestError m))
| mp3_error e :
    mp3_returns w api (mp3_error_message e).

(** ** Every path of [transcribe_speech] *)

Inductive speech_returns (w : world) : string -> string -> Prop :=
| speech_no_speech api m :
    listen w = Raises (WaitTimeoutError m) ->
    speech_returns w api no_speech_message
| speech_listen_unintelligible api m :
    listen w = Raises (UnknownValueError m) ->
    speech_returns w api listen_unintelligible_message
| speech_microphone_request api m :
    listen w = Raises (RequestError m) ->
    speech_returns w api (microphone_request_message (RequestError m))
| speech_recording_unexpected api e :
    listen w = Raises e ->
    speech_returns w api (recording_unexpected_message e)
| speech_transcript api c t :
    recognize w c = Returns t ->
    speech_returns w api t
| speech_wit_unintelligible c m :
    recognize w c = Raises (UnknownValueError m) ->
    speech_returns w "wit" wit_unintelligible_message
| speech_wit_credentials c m :
    recognize w c = Raises (RequestError m) ->
    speech_returns w "wit" wit_credentials_message
| speech_bing_unintelligible c m :
    recognize w c = Raises (UnknownValueError m) ->
    speech_returns w "bing" bing_unintelligible_message
| speech_bing_credentials c m :
    recognize w c = Raises (RequestError m) ->
    speech_returns w "bing" bing_credentials_message
| speech_houndify_unintelligible c m :
    recognize w c = Raises (UnknownValueError m) ->
    speech_returns w "houndify" houndify_unintelligible_message
| speech_houndify_credentials c m :
    recognize w c = Raises (RequestError m) ->
    speech_returns w "houndify" houndify_credentials_message
| speech_unintelligible api c m :
    recognize w c = Raises (UnknownValueError m) ->
    speech_returns w api speech_unintelligible_message
| speech_transport api c m :
    recognize w c = Raises (RequestError m) ->
    speech_returns w api (transport_message api (RequestError m))
| speech_transcription_unexpected api e :
    speech_returns w api (transcription_unexpected_message e)
| speech_page_call_failed api e :
    page_info w "Transcribing..." = Raises e ->
    speech_returns w api
      match e with
      | WaitTimeoutError _ => no_speech_message
      | UnknownValueError _ => listen_unintelligible_message
      | RequestError _ => microphone_request_message e
      | _ => recording_unexpected_message e
      end.

(** ** Credentials *)

(** The call [c] is the one the code makes for [api] on [audio]: the right
    backend, with the credential arguments read from the environment. *)
Definition uses_environ (w : world) (api language : string) (audio : AudioData)
    (c : backend_call) : Prop :=
  match c with
  | recognize_wit a key l =>
      api = "wit" /\ a = audio /\ l = language /\
      key = environ w !! "WIT_AI_KEY"
  | recognize_bing a key l =>
      api = "bing" /\ a = audio /\ l = language /\
      key = environ w !! "BING_KEY"
  | recognize_houndify a client_id client_key l =>
      api = "houndify" /\ a = audio /\ l = language /\
      client_id = environ w !! "HOUNDIFY_CLIENT_ID" /\
      client_key = environ w !! "HOUNDIFY_CLIENT_KEY"
  | _ => False
  end.

(** The message [transcribe_speech] gives for a request failure of a
    provider that takes credentials. *)
Definition credentials_message (api : string) : string :=
  if String.eqb api "wit" then wit_credentials_message
  else if String.eqb api "bing" then bing_credentials_message
  else houndify_credentials_message.

(** ** Reaching the provider branches *)

(** Every stage of [transcribe_mp3] before the provider branches succeeds:
    the temporary file is [p] and the audio read back from it is [audio]. *)
Definition mp3_reaches_dispatch (w : world) (file p : string)
    (audio : AudioData) : Prop :=
  exists u segment u1 u2,
    subprocess_run w = Returns u /\
    from_mp3 w file = Returns segment /\
    named_temporary_file w = Returns p /\
    export w segment p = Returns u1 /\
    audio_file w p = Returns u2 /\
    record w p = Returns audio.

(** ** The format of the derived file name *)

(** The format [transcription_<YYYYMMDD_HHMMSS>.txt], read back: the
    prefix, four digits of year, two each of month and day, an underscore,
    two digits each of hour, minute and second, the suffix, nothing more. *)
Definition digit_value (c : ascii) : option Z :=
  let n := nat_of_ascii c in
  if ((48 <=? n) && (n <=? 57))%nat then Some (Z.of_nat (n - 48)) else None.

Fixpoint read_digits (k : nat) (acc : Z) (s : string) : option (Z * string) :=
  match k with
  | 0 => Some (acc, s)
  | S k' =>
      match s with
      | String c s' =>
          match digit_value c with
          | Some d => read_digits k' (10 * acc + d)%Z s'
          | None => None
          end
      | EmptyString => None
      end
  end.

Fixpoint strip_prefix (p s : string) : option string :=
  match p with
  | EmptyString => Some s
  | String a p' =>
      match s with
      | String b s' => if Ascii.eqb a b then strip_prefix p' s' else None
      | EmptyString => None
      end
  end.

Definition parse_filename (name : string) : option datetime :=
  s ← strip_prefix "transcription_" name;
  '(yyyy, s) ← read_digits 4 0%Z s;
  '(mm, s) ← read_digits 2 0%Z s;
  '(dd, s) ← read_digits 2 0%Z s;
  s ← strip_prefix "_" s;
  '(HH, s) ← read_digits 2 0%Z s;
  '(MM, s) ← read_digits 2 0%Z s;
  '(SS, s) ← read_digits 2 0%Z s;
  if String.eqb s ".txt"
  then Some {| year := yyyy; month := mm; day := dd;
               hour := HH; minute := MM; second := SS |}
  else None.

(** The field ranges of a wall-clock [datetime].  Years below 1000 are
    left out: there the C library's [%Y] differs between platforms. *)
Definition wall_clock (d : datetime) : Prop :=
  (1000 <= year d <= 9999 /\ 1 <= month d <= 12 /\ 1 <= day d <= 31 /\
   0 <= hour d < 24 /\ 0 <= minute d < 60 /\ 0 <= second d < 60)%Z.

(** ** The shape of a backend call *)

(** The provider identifier a recogniser method belongs to. *)
Definition backend_of (c : backend_call) : string :=
  match c with
  | recognize_google _ _ => "google"
  | recognize_sphinx _ => "sphinx"
  | recognize_wit _ _ _ => "wit"
  | recognize_bing _ _ _ => "bing"
  | recognize_houndify _ _ _ _ => "houndify"
  end.

Definition audio_of (c : backend_call) : AudioData :=
  match c with
  | recognize_google a _ | recognize_sphinx a | recognize_wit a _ _
  | recognize_bing a _ _ | recognize_houndify a _ _ _ => a
  end.

(** The language argument of the call, [None] when it has none. *)
Definition language_of (c : backend_call) : option string :=
  match c with
  | recognize_sphinx _ => None
  | recognize_google _ l | recognize_wit _ _ l | recognize_bing _ _ l
  | recognize_houndify _ _ _ l => Some l
  end.

(** The credential arguments of the call, in order. *)
Definition credentials_of (c : backend_call) : list (option string) :=
  match c with
  | recognize_google _ _ | recognize_sphinx _ => []
  | recognize_wit _ key _ | recognize_bing _ key _ => [key]
  | recognize_houndify _ client_id client_key _ => [client_id; client_key]
  end.

(** The environment variables that belong to a provider. *)
Definition env_vars_of (api : string) : list string :=
  if String.eqb api "wit" then ["WIT_AI_KEY"]
  else if String.eqb api "bing" then ["BING_KEY"]
  else if String.eqb api "houndify"
       then ["HOUNDIFY_CLIENT_ID"; "HOUNDIFY_CLIENT_KEY"]
  else [].

Definition is_recognize (ev : event) : bool :=
  match ev with Recognize _ => true | _ => false end.

Definition is_unlink (ev : event) : bool :=
  match ev with Unlink _ => true | _ => false end.

(** A stage of [transcribe_mp3] between the creation of the temporary
    file [p] and the provider branches raises [e]. *)
Inductive mp3_stage_raises (w : world) (segment : AudioData) (p : string)
    (e : exn) : Prop :=
| export_raises :
    export w segment p = Raises e ->
    mp3_stage_raises w segment p e
| audio_file_raises u :
    export w segment p = Returns u ->
    audio_file w p = Raises e ->
    mp3_stage_raises w segment p e
| record_raises u u' :
    export w segment p = Returns u ->
    audio_file w p = Returns u' ->
    record w p = Raises e ->
    mp3_stage_raises w segment p e.

(** The two calls [transcribe_speech] makes outside its [try] blocks
    besides acquiring the microphone: the page calls return, and the
    release of the microphone returns. *)
Definition page_returns (w : world) : Prop :=
  forall msg, page_info w msg = Returns tt.

Definition release_returns (w : world) : Prop :=
  microphone_exit w = Returns tt.

(** The select boxes hand back one of the labels they were given. *)
Definition offered (ui : widgets) : Prop :=
  selectbox_api ui ∈ SUPPORTED_APIS.*1 /\
  selectbox_language ui ∈ SUPPORTED_LANGUAGES.*1.

(** * Proofs *)

(** ** Proof automation *)

(** Symbolic execution of a program of [M].  The program is unfolded to
    nested case analyses; [blocker] finds the scrutinee the evaluation is
    stuck on, which is the next outcome of the world, the next comparison
    of the provider identifier, or the class of a caught exception, and
    [run_step] splits on it, unless a hypothesis already tells the
    outcome. *)
Ltac blocker t :=
  lazymatch t with
  | match ?x with Returns _ => _ | Raises _ => _ end => blocker x
  | match ?x with Normal _ => _ | Return _ => _ | Raise _ => _ end => blocker x
  | match ?x with (_, _) => _ end => blocker x
  | match ?x with Some _ => _ | None => _ end => blocker x
  | match ?x with WaitTimeoutError _ => _ | _ => _ end => blocker x
  | match ?x with Returned _ => _ | Raised _ => _ end => blocker x
  | if ?x then _ else _ => blocker x
  | fst ?x => blocker x
  | snd ?x => blocker x
  | trace ?x => blocker x
  | files ?x => blocker x
  | String.eqb _ _ => t
  | microphone _ => t
  | microphone_exit _ => t
  | page_info _ _ => t
  | listen _ => t
  | recognize _ _ => t
  | subprocess_run _ => t
  | from_mp3 _ _ => t
  | named_temporary_file _ => t
  | export _ _ _ => t
  | audio_file _ _ => t
  | record _ _ => t
  | unlink _ _ => t
  | ?f _ => blocker f
  | _ => t
  end.

Ltac run_simpl :=
  cbv beta iota zeta delta
    [files trace temp_wav_path text fst snd app unbound_text unbound_local].

Ltac is_outcome b :=
  lazymatch b with
  | microphone _ => idtac
  | microphone_exit _ => idtac
  | page_info _ _ => idtac
  | listen _ => idtac
  | recognize _ _ => idtac
  | subprocess_run _ => idtac
  | from_mp3 _ _ => idtac
  | named_temporary_file _ => idtac
  | export _ _ _ => idtac
  | audio_file _ _ => idtac
  | record _ _ => idtac
  | unlink _ _ => idtac
  end.

Ltac run_step :=
  lazymatch goal with
  | |- ?lhs = _ -> _ =>
      let b := blocker lhs in
      lazymatch b with
      | String.eqb ?x ?y =>
          first
            [ let v := eval vm_compute in b in
              lazymatch v with
              | true => change b with true
              | false => change b with false
              end
            | destruct (String.eqb_spec x y); subst ]
      | _ =>
          first
            [ is_var b; destruct b
            | match goal with H : b = _ |- _ => rewrite H end
            | is_outcome b; destruct b eqn:? ]
      end
  end; run_simpl.

Ltac unfold_speech :=
  unfold transcribe_speech, call, transcribe_speech_body, speech_with_body,
    speech_select_api, with_, finally, try_except, getenv, st_info, ext, bind,
    log, ret, raise, return_, return_text, set_text, enter.

Ltac unfold_mp3 :=
  unfold transcribe_mp3, call, transcribe_mp3_body, mp3_try_body,
    mp3_select_api, NamedTemporaryFile_enter, os_unlink, with_, finally,
    try_except, getenv, ext, bind, log, ret, raise, return_, return_text,
    set_text, set_temp_wav_path, get_temp_wav_path, create_file, remove_file,
    enter.

(** Runs every path of the call in the goal.  The call is named [r]; what
    is left is one goal per path, with [r] replaced by the result and final
    state of that path. *)
Ltac run_all r :=
  let Hrun := fresh "Hrun" in
  lazymatch goal with
  | |- context [transcribe_mp3 ?w ?f ?a ?l ?fs] =>
      remember (transcribe_mp3 w f a l fs) as r eqn:Hrun; symmetry in Hrun;
      revert Hrun; unfold_mp3
  | |- context [transcribe_speech ?w ?a ?l ?fs] =>
      remember (transcribe_speech w a l fs) as r eqn:Hrun; symmetry in Hrun;
      revert Hrun; unfold_speech
  end;
  run_simpl; repeat run_step; intros <-;
  cbn [fst snd files trace temp_wav_path text].

(** ** Membership in a concrete trace *)

Ltac in_trace :=
  repeat match goal with
         | H : _ ∈ [] |- _ => by apply elem_of_nil in H
         | H : _ ∈ _ :: _ |- _ => apply elem_of_cons in H as [H|H]; simplify_eq
         | |- _ ∉ _ => intros ?
         | |- _ /\ _ => split
         end.

(** ** Every path of [transcribe_mp3] and [transcribe_speech] *)

Lemma transcribe_mp3_returns w file api language fs :
  exists v,
    fst (transcribe_mp3 w file api language fs) = Returned (Some v) /\
    mp3_returns w api v.
Proof.
  run_all r; eauto using mp3_returns.
Qed.

(** Brings the two page calls and the release into the form the symbolic
    execution looks for. *)
Ltac unguarded_return Hpage Hexit :=
  pose proof (Hpage "Speak now...");
  pose proof (Hpage "Transcribing...");
  unfold release_returns in Hexit.

Lemma transcribe_speech_returns w api language fs :
  match microphone w with
  | Returns _ =>
      page_returns w -> release_returns w ->
      exists v,
        fst (transcribe_speech w api language fs) = Returned (Some v) /\
        speech_returns w api v
  | Raises e =>
      transcribe_speech w api language fs =
        (Raised e,
         {| files := fs; trace := [MicrophoneEnter];
            temp_wav_path := None; text := None |})
  end.
Proof.
  destruct (microphone w) eqn:Hmic.
  - intros Hpage Hexit. unguarded_return Hpage Hexit.
    run_all r; try congruence; eauto using speech_returns.
  - unfold_speech. rewrite Hmic. reflexivity.
Qed.

(** Whatever [transcribe_speech] returns, in any world, is a string of
    the family. *)
Lemma transcribe_speech_range w api language fs v :
  fst (transcribe_speech w api language fs) = Returned v ->
  exists s, v = Some s /\ speech_returns w api s.
Proof.
  run_all r; intros [= <-]; eexists; (split; [reflexivity|]);
    first
      [ match goal with
        | H : page_info _ "Transcribing..." = Raises ?e |- _ =>
            exact (speech_page_call_failed _ _ e H)
        end
      | eauto using speech_returns ].
Qed.


(** ** The codec probe *)

Lemma ffmpeg_missing_message_distinct api e :
  ffmpeg_missing_message <> mp3_error_message e /\
  ffmpeg_missing_message <> transport_message api e /\
  ffmpeg_missing_message <> mp3_unintelligible_message.
Proof. repeat split; cbn; discriminate. Qed.

Lemma mp3_trace_starts_with_probe w file api language fs :
  exists rest,
    trace (snd (transcribe_mp3 w file api language fs)) = SubprocessRun :: rest.
Proof.
  run_all r; eauto.
Qed.

(** C6.  [transcribe_mp3] runs the codec probe before anything else: in
    every run the first external call is [subprocess.run(['ffmpeg',
    '-version'])].  When that call raises (the executable is absent) the
    function returns the "FFmpeg is not installed" message, having made no
    other external call (no decode, no temporary file, no recognition), and
    that message differs from the decode/catch-all message, from the
    transport message and from the unintelligible-audio message. *)
Theorem missing_codec_fails_fast w file api language fs e :
  subprocess_run w = Raises e ->
  (exists rest,
     trace (snd (transcribe_mp3 w file api language fs)) = SubprocessRun :: rest) /\
  transcribe_mp3 w file api language fs =
    (Returned (Some ffmpeg_missing_message),
     {| files := fs; trace := [SubprocessRun];
        temp_wav_path := None; text := None |}) /\
  (FromMp3 ∉ trace (snd (transcribe_mp3 w file api language fs))) /\
  (forall e', ffmpeg_missing_message <> mp3_error_message e') /\
  (forall e', ffmpeg_missing_message <> transport_message api e') /\
  ffmpeg_missing_message <> mp3_unintelligible_message.
Proof.
  intros Hprobe.
  assert (Hrun : transcribe_mp3 w file api language fs =
    (Returned (Some ffmpeg_missing_message),
     {| files := fs; trace := [SubprocessRun];
        temp_wav_path := None; text := None |})).
  { unfold_mp3. rewrite Hprobe. reflexivity. }
  split; [apply mp3_trace_starts_with_probe|].
  split; [exact Hrun|].
  rewrite Hrun. cbn.
  split; [by intros ?%list_elem_of_singleton|].
  split; [intros e'; apply (ffmpeg_missing_message_distinct api e')|].
  split; [intros e'; apply (ffmpeg_missing_message_distinct api e')|].
  apply (ffmpeg_missing_message_distinct api e).
Qed.

Lemma missing_codec_fails_fast_witness :
  transcribe_mp3 no_codec "speech.mp3" "google" "en-US" ∅ =
    (Returned (Some ffmpeg_missing_message),
     {| files := ∅; trace := [SubprocessRun];
        temp_wav_path := None; text := None |}).
Proof.
  apply (missing_codec_fails_fast no_codec "speech.mp3" "google" "en-US" ∅
           (OtherError "[Errno 2] No such file or directory: 'ffmpeg'")).
  reflexivity.
Defined.

(** ** The language tag and the sphinx backend *)

(** C9.  With provider [sphinx] the language argument has no influence:
    for any two language tags, [transcribe_speech] and [transcribe_mp3]
    return the same value, leave the same files and make the same external
    calls, and so does the provider branch on every audio buffer.  The
    recogniser is called as [recognize_sphinx audio], with no language. *)
Theorem sphinx_ignores_language w file fs language1 language2 :
  transcribe_speech w "sphinx" language1 fs =
    transcribe_speech w "sphinx" language2 fs /\
  transcribe_mp3 w file "sphinx" language1 fs =
    transcribe_mp3 w file "sphinx" language2 fs /\
  (forall audio s,
     speech_select_api w "sphinx" language1 audio s =
       speech_select_api w "sphinx" language2 audio s /\
     mp3_select_api w "sphinx" language1 audio s =
       mp3_select_api w "sphinx" language2 audio s /\
     exists c s',
       speech_select_api w "sphinx" language1 audio s = (c, s') /\
       trace s' = (trace s ++ [Recognize (recognize_sphinx audio)])%list).
Proof.
  split; [reflexivity|].
  split; [reflexivity|].
  intros audio s. split; [reflexivity|]. split; [reflexivity|].
  unfold speech_select_api, ext, bind, log, ret, raise, return_text, set_text.
  cbn. destruct (recognize w (recognize_sphinx audio)); cbn; eauto.
Qed.

(** ** The temporary file *)

(** C1 fails on the code.  Once [transcribe_mp3] has created the temporary
    file and then returns anything but the catch-all "Error processing MP3
    file" message (that is: a transcript, the unintelligible-audio message
    or the transport message, all returned from inside the [with] block),
    the file is still on disk at return and [os.unlink] was never called:
    the clean-up after the [with] block is not reached. *)
Theorem returning_paths_leave_temp_file w file api language fs p :
  let r := transcribe_mp3 w file api language fs in
  NamedTemporaryFile p ∈ trace (snd r) ->
  (forall e, fst r <> Returned (Some (mp3_error_message e))) ->
  p ∈ files (snd r) /\ (Unlink p ∉ trace (snd r)).
Proof.
  cbv zeta. run_all r; intros Hcreated Hreturned;
    try (by exfalso; eapply Hreturned); in_trace; set_solver.
Qed.

Lemma returning_paths_leave_temp_file_witness :
  let r := transcribe_mp3 (studio (hears "hello world")) "speech.mp3" "google" "en-US" ∅ in
  fst r = Returned (Some "hello world") /\
  "/tmp/tmpk3v9.wav" ∈ files (snd r) /\
  (Unlink "/tmp/tmpk3v9.wav" ∉ trace (snd r)).
Proof.
  split; [reflexivity|].
  apply (returning_paths_leave_temp_file (studio (hears "hello world"))
           "speech.mp3" "google" "en-US" ∅ "/tmp/tmpk3v9.wav").
  - vm_compute. do 2 right. left.
  - intros e. cbn. discriminate.
Defined.

(** ** Acquiring the microphone *)

(** C5 fails on the code.  [sr.Microphone()] is entered outside every
    [try]: when acquiring the microphone raises, [transcribe_speech] makes
    no further call and the exception leaves the function. *)
Theorem microphone_failure_propagates w api language fs e :
  microphone w = Raises e ->
  transcribe_speech w api language fs =
    (Raised e,
     {| files := fs; trace := [MicrophoneEnter];
        temp_wav_path := None; text := None |}).
Proof.
  intros Hmic. pose proof (transcribe_speech_returns w api language fs) as H.
  by rewrite Hmic in H.
Qed.

Lemma microphone_failure_propagates_witness :
  fst (transcribe_speech
         (with_microphone (Raises (OtherError "No Default Input Device Available"))
            (studio (hears "hello world")))
         "google" "en-US" ∅) =
    Raised (OtherError "No Default Input Device Available").
Proof.
  rewrite (microphone_failure_propagates _ "google" "en-US" ∅
             (OtherError "No Default Input Device Available")); reflexivity.
Defined.

(** ** Request failures of wit and bing *)

(** C7 fails on the code.  With a key the service rejects, and equally
    with no key set, [transcribe_speech] answers a request failure of wit
    or bing with the provider's "check your API key" message, while
    [transcribe_mp3] answers the same failure with the generic transport
    message it uses for every provider. *)
Theorem mp3_request_failure_is_generic :
  Forall
    (fun env =>
       let w := with_environ env (studio (fails unauthorized)) in
       fst (transcribe_speech w "wit" "en-US" ∅) =
         Returned (Some wit_credentials_message) /\
       fst (transcribe_speech w "bing" "en-US" ∅) =
         Returned (Some bing_credentials_message) /\
       fst (transcribe_mp3 w "speech.mp3" "wit" "en-US" ∅) =
         Returned (Some (transport_message "wit" unauthorized)) /\
       fst (transcribe_mp3 w "speech.mp3" "bing" "en-US" ∅) =
         Returned (Some (transport_message "bing" unauthorized)) /\
       fst (transcribe_mp3 w "speech.mp3" "google" "en-US" ∅) =
         Returned (Some (transport_message "google" unauthorized)) /\
       transport_message "wit" unauthorized <> wit_credentials_message /\
       transport_message "bing" unauthorized <> bing_credentials_message)
    [expired_key; ∅].
Proof.
  repeat constructor; cbn; discriminate.
Qed.

(** ** Credentials *)

(** C2 as stated fails.  No credential is set and the provider is wit:
    the backend is called all the same, with [None] for the key, and what
    [transcribe_speech] returns is whatever that call leads to: the
    unexpected-error message when the call raises an assertion failure,
    the transcript when it answers.  Neither is the credentials message. *)
Lemma absent_key_is_not_detected :
  let r := transcribe_speech (studio rejects_key) "wit" "en-US" ∅ in
  let r' := transcribe_speech (studio (hears "hello world")) "wit" "en-US" ∅ in
  environ (studio rejects_key) !! "WIT_AI_KEY" = None /\
  Recognize (recognize_wit clip None "en-US") ∈ trace (snd r) /\
  fst r = Returned (Some (transcription_unexpected_message
                            (OtherError "key must be a string"))) /\
  fst r <> Returned (Some wit_credentials_message) /\
  environ (studio (hears "hello world")) !! "WIT_AI_KEY" = None /\
  fst r' = Returned (Some "hello world").
Proof.
  cbv zeta. split; [reflexivity|]. split.
  { vm_compute. do 5 right. left. }
  split; [reflexivity|]. split; [cbn; discriminate|].
  split; reflexivity.
Qed.

(** C2, amended.  For wit, bing and houndify, once audio has been
    captured, [transcribe_speech] reads the credentials from the
    environment and calls the backend with what it read, set or not; there
    is no check before the call.  A transcript the call returns is the
    result; a request failure it reports gives the provider's "check your
    API key / credentials" message; and whatever the call raises, the
    result is not the generic transport message.  The page calls and the
    release of the microphone, which the code leaves unguarded, are taken
    to return. *)
Theorem credentials_reach_backend_unchecked w api language fs u audio :
  api ∈ ["wit"; "bing"; "houndify"] ->
  microphone w = Returns u ->
  page_returns w ->
  listen w = Returns audio ->
  release_returns w ->
  let r := transcribe_speech w api language fs in
  exists c,
    uses_environ w api language audio c /\
    Recognize c ∈ trace (snd r) /\
    (forall t, recognize w c = Returns t -> fst r = Returned (Some t)) /\
    (forall m, recognize w c = Raises (RequestError m) ->
       fst r = Returned (Some (credentials_message api))) /\
    (forall e e', recognize w c = Raises e ->
       fst r <> Returned (Some (transport_message api e'))).
Proof.
  intros Hapi Hmic Hpage Hlisten Hexit. cbv zeta.
  unguarded_return Hpage Hexit. in_trace.
  all: run_all r.
  all: match goal with H : recognize _ ?c = _ |- _ => exists c end.
  all: split; [cbn; done|].
  all: split; [repeat first [by left | right]|].
  all: repeat split; intros; try congruence; cbn; discriminate.
Qed.

Lemma credentials_reach_backend_unchecked_witness :
  exists c,
    uses_environ (studio rejects_key) "wit" "en-US" clip c /\
    Recognize c ∈ trace (snd (transcribe_speech (studio rejects_key) "wit" "en-US" ∅)).
Proof.
  destruct (credentials_reach_backend_unchecked (studio rejects_key)
              "wit" "en-US" ∅ tt clip) as (c & Hc & Htrace & _).
  - by left.
  - reflexivity.
  - intros msg. reflexivity.
  - reflexivity.
  - reflexivity.
  - exists c. split; assumption.
Defined.

(** ** Provider identifiers outside the menu *)





(** ** The shape of the result *)

(** C4 as stated fails.  Both functions return a bare string.  A speaker
    who says the words of the failure message and an utterance the backend
    cannot make out give the caller the very same value. *)
Lemma transcript_equals_failure_message :
  let said := studio (hears mp3_unintelligible_message) in
  let unheard := studio (fails (UnknownValueError "")) in
  recognize said (recognize_google clip "en-US") =
    Returns mp3_unintelligible_message /\
  recognize unheard (recognize_google clip "en-US") =
    Raises (UnknownValueError "") /\
  fst (transcribe_mp3 said "speech.mp3" "google" "en-US" ∅) =
    fst (transcribe_mp3 unheard "speech.mp3" "google" "en-US" ∅) /\
  fst (transcribe_speech (studio (hears speech_unintelligible_message))
         "google" "en-US" ∅) =
    fst (transcribe_speech unheard "google" "en-US" ∅).
Proof. cbv zeta. repeat split. Qed.

(** C4, amended.  What [transcribe_mp3] hands back is always a string,
    and so is what [transcribe_speech] hands back once the microphone is
    acquired: either the very text a backend call returned, with no tag
    around it, or one of the fixed messages, each tied to the outcome that
    produces it ([mp3_returns], [speech_returns]).  [transcribe_speech]
    does return such a string when its page calls and the release of the
    microphone, which the code leaves unguarded, return; and whatever it
    returns, in any world, is such a string. *)
Theorem results_are_bare_strings w file api language fs :
  (exists v,
     fst (transcribe_mp3 w file api language fs) = Returned (Some v) /\
     mp3_returns w api v) /\
  (forall u,
     microphone w = Returns u ->
     page_returns w ->
     release_returns w ->
     exists v,
       fst (transcribe_speech w api language fs) = Returned (Some v) /\
       speech_returns w api v) /\
  (forall v,
     fst (transcribe_speech w api language fs) = Returned v ->
     exists s, v = Some s /\ speech_returns w api s).
Proof.
  split; [apply transcribe_mp3_returns|]. split.
  - intros u Hmic.
    pose proof (transcribe_speech_returns w api language fs) as H.
    by rewrite Hmic in H.
  - intros v. apply transcribe_speech_range.
Qed.

Lemma results_are_bare_strings_witness :
  exists v,
    fst (transcribe_speech (studio (hears "hello world")) "google" "en-US" ∅) =
      Returned (Some v) /\
    speech_returns (studio (hears "hello world")) "google" v.
Proof.
  apply (proj1 (proj2 (results_are_bare_strings (studio (hears "hello world"))
                  "speech.mp3" "google" "en-US" ∅)) tt).
  - reflexivity.
  - intros msg. reflexivity.
  - reflexivity.
Defined.

(** ** The derived file name *)

Lemma digit_value_digit n : digit_value (digit n) = Some (n mod 10)%Z.
Proof.
  unfold digit_value, digit.
  pose proof (Z.mod_pos_bound n 10 ltac:(lia)) as Hlt.
  rewrite nat_ascii_embedding by lia.
  replace (48 <=? 48 + Z.to_nat (n mod 10))%nat with true
    by (symmetry; apply Nat.leb_le; lia).
  replace (48 + Z.to_nat (n mod 10) <=? 57)%nat with true
    by (symmetry; apply Nat.leb_le; lia).
  cbn [andb]. f_equal. lia.
Qed.

Lemma read_digits_zero_padded k : forall acc n rest,
  read_digits k acc (zero_padded k n +:+ rest) =
    Some (acc * 10 ^ Z.of_nat k + n mod 10 ^ Z.of_nat k, rest)%Z.
Proof.
  induction k as [|k IH]; intros acc n rest.
  - cbn [read_digits zero_padded String.append]. f_equal. f_equal.
    change (10 ^ Z.of_nat 0)%Z with 1%Z. rewrite Z.mod_1_r. lia.
  - change (zero_padded (S k) n +:+ rest)
      with (String (digit (n / 10 ^ Z.of_nat k)) (zero_padded k n +:+ rest)).
    cbn [read_digits].
    rewrite digit_value_digit, IH. f_equal. f_equal.
    rewrite Nat2Z.inj_succ, Z.pow_succ_r by lia.
    rewrite (Z.mul_comm 10 (10 ^ Z.of_nat k)).
    rewrite (Z.rem_mul_r n (10 ^ Z.of_nat k) 10) by lia.
    lia.
Qed.

Lemma length_zero_padded k n : String.length (zero_padded k n) = k.
Proof. induction k; cbn [zero_padded String.length]; congruence. Qed.

Lemma strftime_timestamp d :
  strftime "%Y%m%d_%H%M%S" d =
    zero_padded 4 (year d) +:+ zero_padded 2 (month d) +:+
    zero_padded 2 (day d) +:+ "_" +:+ zero_padded 2 (hour d) +:+
    zero_padded 2 (minute d) +:+ zero_padded 2 (second d).
Proof. reflexivity. Qed.

Lemma length_timestamp d : String.length (strftime "%Y%m%d_%H%M%S" d) = 15.
Proof. reflexivity. Qed.

Lemma append_cons a (s t : string) : String a s +:+ t = String a (s +:+ t).
Proof. reflexivity. Qed.

Lemma append_assoc (s1 s2 s3 : string) :
  (s1 +:+ s2) +:+ s3 = s1 +:+ (s2 +:+ s3).
Proof.
  induction s1 as [|a s1 IH]; [reflexivity|].
  rewrite !append_cons. by rewrite IH.
Qed.

Lemma strip_prefix_append p s : strip_prefix p (p +:+ s) = Some s.
Proof.
  induction p as [|a p IH]; [reflexivity|].
  rewrite append_cons. cbn [strip_prefix]. by rewrite Ascii.eqb_refl.
Qed.

Lemma parse_timestamp_name d :
  wall_clock d ->
  parse_filename ("transcription_" +:+ strftime "%Y%m%d_%H%M%S" d +:+ ".txt")
    = Some d.
Proof.
  intros (Hy & Hm & Hd & HH & HM & HS). unfold parse_filename.
  rewrite strftime_timestamp, strip_prefix_append.
  rewrite !append_assoc.
  repeat (cbn [mbind option_bind];
          first [ rewrite read_digits_zero_padded
                | rewrite (strip_prefix_append "_") ]).
  cbn [mbind option_bind].
  change (String.eqb ".txt" ".txt") with true. cbv iota.
  destruct d as [yyyy mm dd HH' MM' SS']; cbn [year month day hour minute second] in *.
  change (Z.of_nat 4) with 4%Z. change (Z.of_nat 2) with 2%Z.
  rewrite !Z.mod_small by lia. reflexivity.
Qed.

Lemma save_touches_one_file w text filename disk f :
  f <> save_filename w filename ->
  snd (save_transcription w text filename disk) !! f = disk !! f.
Proof.
  intros Hf. unfold save_transcription.
  destruct (open_w w _); [|reflexivity].
  destruct (write w _ _); cbn [snd]; by rewrite lookup_insert_ne.
Qed.

(** C8.  Called without a filename, [save_transcription] names the file
    [transcription_<YYYYMMDD_HHMMSS>.txt] after the time [datetime.now()]
    gives during the call: the name has 33 characters and reads back,
    field by field, as exactly that time.  It is the name passed to
    [open]: no other file changes, and when opening and writing succeed
    the file of that name holds the text and the returned message names
    it.  The function is given no other time. *)
Theorem default_filename_is_time_of_call w text disk :
  wall_clock (now w) ->
  let name := save_filename w None in
  name = "transcription_" +:+ strftime "%Y%m%d_%H%M%S" (now w) +:+ ".txt" /\
  String.length name = 33 /\
  parse_filename name = Some (now w) /\
  (forall f, f <> name ->
     snd (save_transcription w text None disk) !! f = disk !! f) /\
  (forall u u', open_w w name = Returns u -> write w name text = Returns u' ->
     save_transcription w text None disk =
       (saved_message name, <[name := text]> disk)).
Proof.
  intros Hclock. cbv zeta.
  split; [reflexivity|]. split; [reflexivity|].
  split; [by apply parse_timestamp_name|].
  split; [intros f Hf; by apply save_touches_one_file|].
  intros u u' Hopen Hwrite. unfold save_transcription.
  by rewrite Hopen, Hwrite.
Qed.

Lemma default_filename_is_time_of_call_witness :
  save_filename (studio (hears "hello world")) None =
    "transcription_20240309_120005.txt" /\
  parse_filename (save_filename (studio (hears "hello world")) None) = Some noon.
Proof.
  split; [reflexivity|].
  apply (default_filename_is_time_of_call (studio (hears "hello world")) "hello world" ∅).
  unfold wall_clock; cbn; lia.
Defined.

(** C10.  An empty-string filename is treated as no filename:
    [save_transcription text ""] does in every respect what
    [save_transcription text None] does.  The name it writes to is
    [transcription_] followed by the 15 characters of the formatted time
    and [.txt]; the file named by the empty string is left alone. *)
Theorem empty_filename_is_no_filename w text disk :
  save_transcription w text (Some "") disk = save_transcription w text None disk /\
  (exists timestamp,
     timestamp = strftime "%Y%m%d_%H%M%S" (now w) /\
     String.length timestamp = 15 /\
     save_filename w (Some "") = "transcription_" +:+ timestamp +:+ ".txt") /\
  save_filename w (Some "") <> "" /\
  snd (save_transcription w text (Some "") disk) !! "" = disk !! "".
Proof.
  split; [reflexivity|].
  split; [eexists; split; [reflexivity|]; split; reflexivity|].
  assert (Hne : save_filename w (Some "") <> "") by discriminate.
  split; [exact Hne|].
  apply save_touches_one_file. congruence.
Qed.

(** * Further properties of the code *)

(** ** [transcribe_mp3]: failures before recognition *)

(** X1.  When the MP3 cannot be decoded ([AudioSegment.from_mp3] raises
    [e] after a successful codec probe), [transcribe_mp3] returns the
    "Error processing MP3 file" message carrying the text of [e].  It has
    made exactly two external calls, created no temporary file, attempted
    no [os.unlink] and left the files as they were. *)
Theorem decode_failure_is_reported w file api language fs u e :
  subprocess_run w = Returns u ->
  from_mp3 w file = Raises e ->
  transcribe_mp3 w file api language fs =
    (Returned (Some (mp3_error_message e)),
     {| files := fs; trace := [SubprocessRun; FromMp3];
        temp_wav_path := None; text := None |}).
Proof.
  intros Hprobe Hdecode. unfold_mp3. rewrite Hprobe. run_simpl.
  rewrite Hdecode. reflexivity.
Qed.

Lemma decode_failure_is_reported_witness :
  fst (transcribe_mp3
         (with_from_mp3 (fun _ => Raises (OtherError "Decoding failed. ffmpeg returned error code: 1"))
            (studio (hears "hello world")))
         "broken.mp3" "google" "en-US" ∅) =
    Returned (Some (mp3_error_message
                      (OtherError "Decoding failed. ffmpeg returned error code: 1"))).
Proof.
  rewrite (decode_failure_is_reported _ "broken.mp3" "google" "en-US" ∅ tt
             (OtherError "Decoding failed. ffmpeg returned error code: 1"));
    reflexivity.
Defined.

(** Membership in the sets of files a run leaves. *)
Ltac files_tac :=
  rewrite ?elem_of_difference, ?elem_of_union, ?elem_of_singleton in *;
  intuition congruence.

(** X2.  When a stage between the creation of the temporary file and the
    provider branches raises [e] (writing the WAV data, opening the file,
    reading it), [transcribe_mp3] calls no backend, calls [os.unlink] on
    the temporary file as its last external call and returns the "Error
    processing MP3 file" message with the text of [e].  If the unlink
    returns, the temporary file is gone; if the unlink raises, that second
    error is dropped, the message is the same and the file stays. *)
Theorem stage_failure_unlinks_temp_file w file api language fs u segment p e :
  subprocess_run w = Returns u ->
  from_mp3 w file = Returns segment ->
  named_temporary_file w = Returns p ->
  mp3_stage_raises w segment p e ->
  let r := transcribe_mp3 w file api language fs in
  fst r = Returned (Some (mp3_error_message e)) /\
  last (trace (snd r)) = Some (Unlink p) /\
  (forall c, Recognize c ∉ trace (snd r)) /\
  (forall u', unlink w p = Returns u' -> p ∉ files (snd r)) /\
  (forall e', unlink w p = Raises e' -> p ∈ files (snd r)).
Proof.
  intros Hprobe Hdecode Hcreate Hstage. cbv zeta.
  destruct Hstage as [Hexport | u1 Hexport Hopen | u1 u2 Hexport Hopen Hrecord].
  all: run_all r.
  all: (split; [reflexivity|]); (split; [reflexivity|]); split;
    [intros c; in_trace|].
  all: split; intros; try congruence; files_tac.
Qed.

Lemma stage_failure_unlinks_temp_file_witness :
  let r := transcribe_mp3
             (with_audio_file (fun _ => Raises (OtherError "Audio file could not be read"))
                (studio (hears "hello world")))
             "speech.mp3" "google" "en-US" ∅ in
  fst r = Returned (Some (mp3_error_message (OtherError "Audio file could not be read"))) /\
  last (trace (snd r)) = Some (Unlink "/tmp/tmpk3v9.wav").
Proof.
  cbv zeta.
  destruct (stage_failure_unlinks_temp_file
              (with_audio_file (fun _ => Raises (OtherError "Audio file could not be read"))
                 (studio (hears "hello world")))
              "speech.mp3" "google" "en-US" ∅ tt clip "/tmp/tmpk3v9.wav"
              (OtherError "Audio file could not be read"))
    as (H1 & H2 & _); try reflexivity.
  - apply (audio_file_raises _ _ _ _ tt); reflexivity.
  - split; assumption.
Defined.

(** ** What the transcription functions never do *)

(** X3.  [transcribe_mp3] unlinks at most one file, and only the
    temporary file it created itself in this run. *)
Theorem unlinks_only_own_temp_file w file api language fs :
  let s := snd (transcribe_mp3 w file api language fs) in
  length (List.filter is_unlink (trace s)) <= 1 /\
  (forall q, Unlink q ∈ trace s ->
     named_temporary_file w = Returns q /\ NamedTemporaryFile q ∈ trace s).
Proof.
  cbv zeta. run_all r; (split; [cbn; lia|]); intros q Hq; in_trace;
    try done; repeat first [by left | right].
Qed.

(** X4.  Neither function retries: one run makes at most one backend
    call. *)
Theorem at_most_one_backend_call w file api language fs :
  length (List.filter is_recognize
            (trace (snd (transcribe_speech w api language fs)))) <= 1 /\
  length (List.filter is_recognize
            (trace (snd (transcribe_mp3 w file api language fs)))) <= 1.
Proof.
  split; run_all r; cbn; lia.
Qed.

(** X5.  The only environment variables a run reads are those of the
    selected provider: [WIT_AI_KEY] for wit, [BING_KEY] for bing, the two
    Houndify variables for houndify, none for google, sphinx or an
    identifier outside the menu. *)
Theorem environment_reads_match_provider w file api language fs name :
  (Getenv name ∈ trace (snd (transcribe_speech w api language fs)) ->
   name ∈ env_vars_of api) /\
  (Getenv name ∈ trace (snd (transcribe_mp3 w file api language fs)) ->
   name ∈ env_vars_of api).
Proof.
  split; run_all r; intros Hread; in_trace;
    repeat match goal with
           | Hne : ?a <> _ |- context [String.eqb ?a ?b] =>
               destruct (String.eqb_spec a b); [congruence|]
           end;
    cbn; repeat first [by left | right].
Qed.

Lemma speech_call_shape w api language fs c :
  Recognize c ∈ trace (snd (transcribe_speech w api language fs)) ->
  backend_of c = api /\
  (language_of c = Some language \/ api = "sphinx" /\ language_of c = None) /\
  credentials_of c = (fun name => environ w !! name) <$> env_vars_of api.
Proof.
  run_all r; intros Hcall; in_trace; cbn; auto.
Qed.

Lemma mp3_call_shape w file api language fs c :
  Recognize c ∈ trace (snd (transcribe_mp3 w file api language fs)) ->
  backend_of c = api /\
  (language_of c = Some language \/ api = "sphinx" /\ language_of c = None) /\
  credentials_of c = (fun name => environ w !! name) <$> env_vars_of api.
Proof.
  run_all r; intros Hcall; in_trace; cbn; auto.
Qed.

(** X6.  Every backend call a run makes is the method of the selected
    provider; it carries the language tag it was given unchanged (sphinx
    takes none) and, as credentials, exactly what the environment holds
    under that provider's variables, in order. *)
Theorem backend_call_matches_request w file api language fs c :
  Recognize c ∈ trace (snd (transcribe_speech w api language fs)) \/
  Recognize c ∈ trace (snd (transcribe_mp3 w file api language fs)) ->
  backend_of c = api /\
  (language_of c = Some language \/ api = "sphinx" /\ language_of c = None) /\
  credentials_of c = (fun name => environ w !! name) <$> env_vars_of api.
Proof.
  intros [Hcall | Hcall];
    [by apply (speech_call_shape w api language fs)
    |by apply (mp3_call_shape w file api language fs)].
Qed.

Lemma backend_call_matches_request_witness :
  let w := with_environ {[ "HOUNDIFY_CLIENT_ID" := "my-id" ]}
             (studio (hears "bonjour")) in
  let c := recognize_houndify clip (Some "my-id") None "fr-FR" in
  backend_of c = "houndify" /\
  (language_of c = Some "fr-FR" \/ "houndify" = "sphinx" /\ language_of c = None) /\
  credentials_of c = (fun name => environ w !! name) <$> env_vars_of "houndify".
Proof.
  apply (backend_call_matches_request
           (with_environ {[ "HOUNDIFY_CLIENT_ID" := "my-id" ]} (studio (hears "bonjour")))
           "speech.mp3" "houndify" "fr-FR" ∅
           (recognize_houndify clip (Some "my-id") None "fr-FR")).
  left. vm_compute. do 6 right. left.
Defined.

(** ** Capture failures *)

(** X7.  When listening fails after the microphone was acquired and the
    first page call returned, [transcribe_speech] answers by the class of
    the exception: timeout, unintelligible audio, request failure (with the
    error's text), anything else (with the error's text).  It calls no
    backend, reads no environment variable, and its last call releases the
    microphone.  If that release returns, the message is returned; if the
    release itself raises, its exception leaves the function in place of
    the message.  The four messages differ from one another whatever the
    error texts are, so the caller can tell the four failures apart. *)
Theorem listen_failure_is_classified w api language fs u e :
  microphone w = Returns u ->
  page_info w "Speak now..." = Returns tt ->
  listen w = Raises e ->
  let message :=
    match e with
    | WaitTimeoutError _ => no_speech_message
    | UnknownValueError _ => listen_unintelligible_message
    | RequestError _ => microphone_request_message e
    | _ => recording_unexpected_message e
    end in
  let s :=
    {| files := fs;
       trace := [MicrophoneEnter; StInfo "Speak now..."; Listen; MicrophoneExit];
       temp_wav_path := None; text := None |} in
  (release_returns w ->
   transcribe_speech w api language fs = (Returned (Some message), s)) /\
  (forall e', microphone_exit w = Raises e' ->
   transcribe_speech w api language fs = (Raised e', s)) /\
  (forall e1 e2,
     no_speech_message <> listen_unintelligible_message /\
     no_speech_message <> microphone_request_message e1 /\
     no_speech_message <> recording_unexpected_message e1 /\
     listen_unintelligible_message <> microphone_request_message e1 /\
     listen_unintelligible_message <> recording_unexpected_message e1 /\
     microphone_request_message e1 <> recording_unexpected_message e2).
Proof.
  intros Hmic Hpage Hlisten. cbv zeta. split; [|split].
  - intros Hexit. unfold release_returns in Hexit. unfold_speech.
    rewrite Hmic. run_simpl. rewrite Hpage. run_simpl. rewrite Hlisten.
    destruct e; run_simpl; rewrite Hexit; reflexivity.
  - intros e' Hexit. unfold_speech.
    rewrite Hmic. run_simpl. rewrite Hpage. run_simpl. rewrite Hlisten.
    destruct e; run_simpl; rewrite Hexit; reflexivity.
  - intros e1 e2. repeat split; cbn; discriminate.
Qed.

Lemma listen_failure_is_classified_witness :
  fst (transcribe_speech
         (with_listen (Raises (WaitTimeoutError "listening timed out"))
            (studio (hears "hello world")))
         "wit" "en-US" ∅) =
    Returned (Some no_speech_message).
Proof.
  rewrite (proj1 (listen_failure_is_classified
                    (with_listen (Raises (WaitTimeoutError "listening timed out"))
                       (studio (hears "hello world")))
                    "wit" "en-US" ∅ tt
                    (WaitTimeoutError "listening timed out")
                    eq_refl eq_refl eq_refl) eq_refl).
  reflexivity.
Defined.

(** The release raising, on a microphone whose stream never opened:
    listening fails, and the error of the release is what the caller
    gets. *)
Example release_failure_leaves_function :
  fst (transcribe_speech
         (with_microphone_exit
            (Raises (OtherError "'NoneType' object has no attribute 'close'"))
            (with_listen
               (Raises (OtherError "Audio source must be entered before listening"))
               (studio (hears "hello world"))))
         "google" "en-US" ∅) =
    Raised (OtherError "'NoneType' object has no attribute 'close'").
Proof. reflexivity. Qed.

(** ** Resources *)

(** X8.  [transcribe_speech] leaves the temporary files alone (it creates
    none, unlinks none and runs no subprocess), and once it has acquired
    the microphone it releases it on every path: the release is the last
    external call of the run, whether the run ends in a transcript or in
    any failure message. *)
Theorem speech_releases_microphone w api language fs :
  let s := snd (transcribe_speech w api language fs) in
  files s = fs /\
  (forall ev, ev ∈ trace s ->
     match ev with
     | SubprocessRun | FromMp3 | NamedTemporaryFile _ | ExportWav _
     | AudioFileEnter _ | AudioFileExit _ | RecordAudio _ | Unlink _ => False
     | _ => True
     end) /\
  (forall u, microphone w = Returns u -> last (trace s) = Some MicrophoneExit).
Proof.
  cbv zeta. run_all r; (split; [reflexivity|]); split;
    try (intros ev Hev; in_trace; exact I);
    intros; try reflexivity; congruence.
Qed.

(** X9.  [transcribe_mp3] changes no file but its own temporary file:
    membership of every other path is as before the call.  When the run
    opened the temporary file for reading, it closed it again, on every
    path. *)
Theorem mp3_touches_only_temp_file w file api language fs :
  let s := snd (transcribe_mp3 w file api language fs) in
  (forall q, named_temporary_file w <> Returns q -> (q ∈ files s <-> q ∈ fs)) /\
  (forall p u, AudioFileEnter p ∈ trace s -> audio_file w p = Returns u ->
     AudioFileExit p ∈ trace s).
Proof.
  cbv zeta. run_all r;
    (split;
     [ intros q Hq; files_tac
     | intros p0 u0 Hopen Hok; in_trace; try congruence;
       repeat first [by left | right] ]).
Qed.

(** ** Recognition *)

(** X10.  The menu and the provider branches agree.  Once the audio is
    there (captured by [transcribe_speech] with its page calls returning,
    read back from the temporary file by [transcribe_mp3]), a backend is
    called if and only if the identifier is one of the five the menu
    offers. *)
Theorem backend_called_iff_offered w file api language fs :
  (forall u audio, microphone w = Returns u -> page_returns w ->
     listen w = Returns audio ->
     (exists c, Recognize c ∈ trace (snd (transcribe_speech w api language fs)))
     <-> api ∈ SUPPORTED_APIS.*2) /\
  (forall p audio, mp3_reaches_dispatch w file p audio ->
     (exists c, Recognize c ∈ trace (snd (transcribe_mp3 w file api language fs)))
     <-> api ∈ SUPPORTED_APIS.*2).
Proof.
  split.
  - intros u audio Hmic Hpage Hlisten.
    pose proof (Hpage "Speak now..."). pose proof (Hpage "Transcribing...").
    split.
    + intros [c Hc]. revert Hc. run_all r; intros Hc; in_trace;
        cbn; repeat first [by left | right].
    + intros Hapi. cbn in Hapi. in_trace.
      all: run_all r; eexists; repeat first [by left | right].
  - intros p audio (u & segment & u1 & u2 & H1 & H2 & H3 & H4 & H5 & H6). split.
    + intros [c Hc]. revert Hc. run_all r; intros Hc; in_trace;
        cbn; repeat first [by left | right].
    + intros Hapi. cbn in Hapi. in_trace.
      all: run_all r; eexists; repeat first [by left | right].
Qed.

Lemma backend_called_iff_offered_witness :
  (exists c, Recognize c ∈
     trace (snd (transcribe_speech (studio (hears "hello world")) "bing" "en-US" ∅))).
Proof.
  apply (proj1 (backend_called_iff_offered (studio (hears "hello world"))
                  "speech.mp3" "bing" "en-US" ∅)
           tt clip eq_refl (fun _ => eq_refl) eq_refl).
  apply (bool_decide_unpack _). vm_compute. exact I.
Defined.

(** X11.  What [transcribe_mp3] makes of the backend's answer, for a
    provider of the menu, once the pipeline has reached the provider
    branches with audio [audio] in temporary file [p].  The backend called
    is the provider's, on that audio.  A transcript is returned as it is;
    unintelligible audio and a request failure give their messages, the
    latter with the provider identifier and the error text; in these three
    cases the run ends with closing the audio file.  Any other exception
    gives the "Error processing MP3 file" message with the error text, and
    there the temporary file is unlinked. *)
Theorem mp3_recognition_outcomes w file api language fs p audio :
  api ∈ SUPPORTED_APIS.*2 ->
  mp3_reaches_dispatch w file p audio ->
  let r := transcribe_mp3 w file api language fs in
  exists c,
    Recognize c ∈ trace (snd r) /\ backend_of c = api /\ audio_of c = audio /\
    match recognize w c with
    | Returns t =>
        fst r = Returned (Some t) /\
        last (trace (snd r)) = Some (AudioFileExit p)
    | Raises (UnknownValueError _) =>
        fst r = Returned (Some mp3_unintelligible_message) /\
        last (trace (snd r)) = Some (AudioFileExit p)
    | Raises (RequestError m) =>
        fst r = Returned (Some (transport_message api (RequestError m))) /\
        last (trace (snd r)) = Some (AudioFileExit p)
    | Raises e =>
        fst r = Returned (Some (mp3_error_message e)) /\
        last (trace (snd r)) = Some (Unlink p)
    end.
Proof.
  intros Hapi (u & segment & u1 & u2 & H1 & H2 & H3 & H4 & H5 & H6).
  cbv zeta. cbn in Hapi. in_trace.
  all: run_all r.
  all: match goal with H : recognize _ ?c = _ |- _ => exists c; rewrite H end.
  all: (split; [repeat first [by left | right]|]); repeat split.
Qed.

Lemma mp3_recognition_outcomes_witness :
  fst (transcribe_mp3 (studio (fails (OtherError "connection reset")))
         "speech.mp3" "sphinx" "en-US" ∅) =
    Returned (Some (mp3_error_message (OtherError "connection reset"))).
Proof.
  destruct (mp3_recognition_outcomes (studio (fails (OtherError "connection reset")))
              "speech.mp3" "sphinx" "en-US" ∅ "/tmp/tmpk3v9.wav" clip)
    as (c & _ & _ & _ & H).
  - apply (bool_decide_unpack _). vm_compute. exact I.
  - exists tt, clip, tt, tt. repeat split.
  - exact (proj1 H).
Defined.

(** X12.  What [transcribe_speech] makes of the backend's answer for the
    two providers without credentials, google and sphinx, once the audio
    is captured: a transcript is returned as it is; unintelligible audio
    gives the "Sorry, I did not understand" message; a request failure
    gives the transport message with the provider identifier and the
    error text; any other exception gives the unexpected-error message
    with the error text.  The page calls and the release of the
    microphone, which the code leaves unguarded, are taken to return;
    then nothing is raised to the caller. *)
Theorem speech_recognition_outcomes w api language fs u audio :
  api = "google" \/ api = "sphinx" ->
  microphone w = Returns u ->
  page_returns w ->
  listen w = Returns audio ->
  release_returns w ->
  let r := transcribe_speech w api language fs in
  exists c,
    Recognize c ∈ trace (snd r) /\ backend_of c = api /\ audio_of c = audio /\
    fst r =
      Returned (Some match recognize w c with
                     | Returns t => t
                     | Raises (UnknownValueError _) => speech_unintelligible_message
                     | Raises (RequestError m) => transport_message api (RequestError m)
                     | Raises e => transcription_unexpected_message e
                     end).
Proof.
  intros [-> | ->] Hmic Hpage Hlisten Hexit; cbv zeta;
    unguarded_return Hpage Hexit.
  all: run_all r.
  all: match goal with H : recognize _ ?c = _ |- _ => exists c; rewrite H end.
  all: (split; [repeat first [by left | right]|]); repeat split.
Qed.

Lemma speech_recognition_outcomes_witness :
  fst (transcribe_speech (studio (fails (RequestError "connection failed")))
         "google" "en-US" ∅) =
    Returned (Some "Could not request results from google service; connection failed").
Proof.
  destruct (speech_recognition_outcomes (studio (fails (RequestError "connection failed")))
              "google" "en-US" ∅ tt clip)
    as (c & _ & _ & _ & H);
    [by left|reflexivity|intros msg; reflexivity|reflexivity|reflexivity|].
  exact H.
Defined.

(** ** [save_transcription] *)

(** X13.  Saving under a given, non-empty filename and reading that file
    back gives exactly the text: when opening and writing succeed, the
    file of that name holds the text, whatever it held before, every other
    file is as it was, and the returned message names the file.  The clock
    plays no part. *)
Theorem save_then_read_back w text filename disk u u' :
  filename <> "" ->
  open_w w filename = Returns u ->
  write w filename text = Returns u' ->
  let r := save_transcription w text (Some filename) disk in
  fst r = saved_message filename /\
  snd r !! filename = Some text /\
  (forall f, f <> filename -> snd r !! f = disk !! f) /\
  (forall d, save_transcription (with_now d w) text (Some filename) disk = r).
Proof.
  intros Hname Hopen Hwrite. cbv zeta.
  assert (Hf : forall d, save_filename (with_now d w) (Some filename) = filename)
    by (intros d; destruct filename; [done|reflexivity]).
  assert (Hf' : save_filename w (Some filename) = filename)
    by (destruct filename; [done|reflexivity]).
  unfold save_transcription. rewrite Hf'. rewrite Hopen, Hwrite. cbn [fst snd].
  split; [reflexivity|]. split; [apply lookup_insert_eq|].
  split; [intros f Hne; by apply lookup_insert_ne|].
  intros d. rewrite Hf. cbn [open_w write with_now]. by rewrite Hopen, Hwrite.
Qed.

Lemma save_then_read_back_witness :
  snd (save_transcription (studio (hears "hello world")) "hello world"
         (Some "t.txt") {[ "t.txt" := "old" ]}) !! "t.txt" = Some "hello world".
Proof.
  apply (save_then_read_back (studio (hears "hello world")) "hello world"
           "t.txt" {[ "t.txt" := "old" ]} tt tt); [discriminate|reflexivity..].
Defined.

(** X14.  A failed save is reported, not raised, and what it leaves
    behind depends on where it failed.  If the file cannot be opened,
    nothing on disk changes.  If it was opened and the write fails, the
    file exists and is empty: what it held before is lost.  Either way the
    result is the "Error saving transcription" message with the error
    text. *)
Theorem failed_save_effects w text filename disk e :
  let name := save_filename w filename in
  let r := save_transcription w text filename disk in
  (open_w w name = Raises e ->
     r = (save_error_message e, disk)) /\
  (forall u, open_w w name = Returns u -> write w name text = Raises e ->
     fst r = save_error_message e /\
     snd r !! name = Some "" /\
     (forall f, f <> name -> snd r !! f = disk !! f)).
Proof.
  cbv zeta. unfold save_transcription. split.
  - intros Hopen. by rewrite Hopen.
  - intros u Hopen Hwrite. rewrite Hopen, Hwrite. cbn [fst snd].
    split; [reflexivity|]. split; [apply lookup_insert_eq|].
    intros f Hne. by apply lookup_insert_ne.
Qed.

Lemma failed_save_effects_witness :
  save_transcription
    (with_open_w (fun _ => Raises (OtherError "[Errno 13] Permission denied: 'out.txt'"))
       (studio (hears "hello world")))
    "hello world" (Some "out.txt") {[ "out.txt" := "kept" ]} =
    ("Error saving transcription: [Errno 13] Permission denied: 'out.txt'",
     {[ "out.txt" := "kept" ]}).
Proof.
  apply (failed_save_effects
           (with_open_w (fun _ => Raises (OtherError "[Errno 13] Permission denied: 'out.txt'"))
              (studio (hears "hello world")))
           "hello world" (Some "out.txt") {[ "out.txt" := "kept" ]}
           (OtherError "[Errno 13] Permission denied: 'out.txt'")).
  reflexivity.
Defined.

(** X15.  Two saves without a filename go to the same file exactly when
    the clock shows the same second at both: for wall-clock readings the
    derived names are equal if and only if the readings are.  Within one
    second the second save overwrites the first: after both succeeded the
    file holds the second text only. *)
Theorem derived_names_collide_within_a_second w1 w2 text1 text2 disk :
  wall_clock (now w1) ->
  wall_clock (now w2) ->
  (save_filename w1 None = save_filename w2 None <-> now w1 = now w2) /\
  (now w1 = now w2 ->
   forall u1 u1' u2 u2',
     open_w w1 (save_filename w1 None) = Returns u1 ->
     write w1 (save_filename w1 None) text1 = Returns u1' ->
     open_w w2 (save_filename w2 None) = Returns u2 ->
     write w2 (save_filename w2 None) text2 = Returns u2' ->
     let disk1 := snd (save_transcription w1 text1 None disk) in
     let disk2 := snd (save_transcription w2 text2 None disk1) in
     disk2 !! save_filename w1 None = Some text2 /\
     disk2 = <[save_filename w1 None := text2]> disk).
Proof.
  intros Hc1 Hc2. split.
  - split.
    + intros Heq. apply parse_timestamp_name in Hc1, Hc2.
      unfold save_filename in Heq. rewrite Heq in Hc1. congruence.
    + intros Heq. unfold save_filename. by rewrite Heq.
  - intros Heq u1 u1' u2 u2' Ho1 Hw1 Ho2 Hw2. cbv zeta.
    assert (Hname : save_filename w2 None = save_filename w1 None)
      by (unfold save_filename; by rewrite Heq).
    unfold save_transcription. rewrite Ho1, Hw1, Ho2, Hw2. cbn [snd].
    rewrite Hname. split; [apply lookup_insert_eq|apply insert_insert_eq].
Qed.

Lemma derived_names_collide_within_a_second_witness :
  save_filename (studio (hears "one")) None =
    save_filename (studio (hears "two")) None <->
  now (studio (hears "one")) = now (studio (hears "two")).
Proof.
  apply (derived_names_collide_within_a_second
           (studio (hears "one")) (studio (hears "two")) "one" "two" ∅);
    unfold wall_clock; cbn; lia.
Defined.

(** ** [main] *)

Lemma subscript_returns d k v : subscript d k = Returns v -> (k, v) ∈ d.
Proof.
  unfold subscript.
  destruct (list_to_map d !! k) as [v'|] eqn:Hlookup; [|discriminate].
  intros [= <-]. by apply elem_of_list_to_map_2.
Qed.

Lemma subscript_offered d k :
  k ∈ d.*1 -> exists v, subscript d k = Returns v /\ v ∈ d.*2.
Proof.
  intros Hk. unfold subscript.
  destruct (list_to_map d !! k) as [v|] eqn:Hlookup.
  - exists v. split; [reflexivity|].
    apply elem_of_list_to_map_2 in Hlookup.
    by apply (list_elem_of_fmap_2 snd) in Hlookup.
  - by apply not_elem_of_list_to_map_2 in Hlookup.
Qed.

Lemma save_text_touches_one_file w text disk f :
  f <> save_filename w None ->
  snd (save_text w text disk) !! f = disk !! f.
Proof.
  intros Hf. destruct text as [t|]; cbn [save_text].
  - by apply save_touches_one_file.
  - destruct (open_w w _); cbn [snd]; [by rewrite lookup_insert_ne|reflexivity].
Qed.

Lemma save_button_touches_one_file w pressed text s f :
  f <> save_filename w None ->
  s_disk (save_button w pressed text s) !! f = s_disk s !! f.
Proof.
  intros Hf. unfold save_button. destruct pressed; [|reflexivity].
  pose proof (save_text_touches_one_file w text (s_disk s) f Hf) as H.
  destruct (save_text w text (s_disk s)) as [msg d]. exact H.
Qed.

Lemma save_button_keeps_calls w pressed text s :
  s_calls (save_button w pressed text s) = s_calls s /\
  s_files (save_button w pressed text s) = s_files s /\
  (pressed = false -> save_button w pressed text s = s).
Proof.
  unfold save_button. destruct pressed; [|done].
  destruct (save_text w text (s_disk s)) as [msg d]. done.
Qed.


Lemma offered_visitor : offered visitor.
Proof. split; apply (bool_decide_unpack _); vm_compute; exact I. Qed.


(** X17.  The only files of the working directory [main] can change are
    the two timestamp-named files of its save buttons: every other file
    holds after the run what it held before, for any widget state.  A run
    in which no save button is pressed changes no file at all. *)
Theorem main_writes_only_derived_names w1 w2 ui fs disk :
  let s := snd (main w1 w2 ui fs disk) in
  (forall f, f <> save_filename w1 None -> f <> save_filename w2 None ->
     s_disk s !! f = disk !! f) /\
  (button_save_recording ui = false -> button_save_mp3 ui = false ->
     s_disk s = disk).
Proof.
  cbv zeta. split.
  - intros f Hf1 Hf2. unfold main, tab1, tab2.
    repeat match goal with
           | |- context [if ?b then _ else _] => destruct b
           | |- context [match subscript ?d ?k with _ => _ end] =>
               destruct (subscript d k)
           | |- context [match file_uploader ?u with _ => _ end] =>
               destruct (file_uploader u)
           | |- context [match transcribe_speech ?w ?a ?l ?x with _ => _ end] =>
               destruct (transcribe_speech w a l x) as [[?|?] ?]
           | |- context [match transcribe_mp3 ?w ?g ?a ?l ?x with _ => _ end] =>
               destruct (transcribe_mp3 w g a l x) as [[?|?] ?]
           end;
      cbn [fst snd s_disk st_write ran];
      rewrite ?save_button_touches_one_file by done;
      cbn [fst snd s_disk st_write ran];
      rewrite ?save_button_touches_one_file by done;
      reflexivity.
  - intros Hs1 Hs2. unfold main, tab1, tab2. rewrite Hs1, Hs2.
    repeat match goal with
           | |- context [if ?b then _ else _] => destruct b
           | |- context [match subscript ?d ?k with _ => _ end] =>
               destruct (subscript d k)
           | |- context [match file_uploader ?u with _ => _ end] =>
               destruct (file_uploader u)
           | |- context [match transcribe_speech ?w ?a ?l ?x with _ => _ end] =>
               destruct (transcribe_speech w a l x) as [[?|?] ?]
           | |- context [match transcribe_mp3 ?w ?g ?a ?l ?x with _ => _ end] =>
               destruct (transcribe_mp3 w g a l x) as [[?|?] ?]
           end;
      reflexivity.
Qed.

Lemma main_writes_only_derived_names_witness :
  s_disk (snd (main (studio (hears "bonjour")) (studio (hears "bonjour"))
                 visitor ∅ {[ "notes.txt" := "mine" ]})) !! "notes.txt" =
    Some "mine".
Proof.
  rewrite (proj1 (main_writes_only_derived_names
                    (studio (hears "bonjour")) (studio (hears "bonjour"))
                    visitor ∅ {[ "notes.txt" := "mine" ]}) "notes.txt");
    [apply lookup_singleton_eq|discriminate|discriminate].
Defined.

Ltac calls_simpl :=
  repeat progress
    (cbn [snd s_calls st_write ran app];
     rewrite ?(proj1 (save_button_keeps_calls _ _ _ _))).

(** X18.  With select boxes that hand back one of the labels they offer,
    every backend call a run of [main] leads to is the method of one of
    the five providers of the menu, and its language argument, when it has
    one, is one of the ten tags of the language menu. *)
Theorem main_calls_menu_backends w1 w2 ui fs disk c :
  offered ui ->
  Recognize c ∈ s_calls (snd (main w1 w2 ui fs disk)) ->
  backend_of c ∈ SUPPORTED_APIS.*2 /\
  (forall tag, language_of c = Some tag -> tag ∈ SUPPORTED_LANGUAGES.*2).
Proof.
  intros [(api & Hapi & Hapi')%subscript_offered
          (language & Hlanguage & Hlanguage')%subscript_offered].
  assert (Hshape : forall w file,
    Recognize c ∈ trace (snd (transcribe_speech w api language fs)) \/
    (exists fs', Recognize c ∈ trace (snd (transcribe_mp3 w file api language fs'))) ->
    backend_of c ∈ SUPPORTED_APIS.*2 /\
    (forall tag, language_of c = Some tag -> tag ∈ SUPPORTED_LANGUAGES.*2)).
  { intros w file [H | [fs' H]];
      [apply speech_call_shape in H | apply mp3_call_shape in H];
      destruct H as (Hb & Hl & _); (split; [by rewrite Hb|]);
      intros tag Htag; destruct Hl as [Hl | [_ Hl]]; congruence. }
  unfold main, tab1, tab2. rewrite Hapi, Hlanguage.
  destruct (button_start_recording ui).
  - cbn [s_files st_write].
    destruct (transcribe_speech w1 api language fs) as [[text|e] st] eqn:Hspeech.
    + destruct (file_uploader ui) as [uploaded|];
        [destruct (button_transcribe_mp3 ui)|].
      * match goal with
        | |- context [transcribe_mp3 ?w ?f ?a ?l ?x] =>
            destruct (transcribe_mp3 w f a l x) as [[text'|e'] st'] eqn:Hmp3
        end;
          calls_simpl; rewrite ?elem_of_app, ?elem_of_nil; intros H;
          destruct_or? H; try done;
          first [ apply (Hshape w1 uploaded); left; by rewrite Hspeech
                | apply (Hshape w2 uploaded); right;
                  match type of Hmp3 with
                  | transcribe_mp3 _ _ _ _ ?x = _ => exists x
                  end; by rewrite Hmp3 ].
      * calls_simpl. intros H. apply (Hshape w1 ""). left. by rewrite Hspeech.
      * calls_simpl. intros H. apply (Hshape w1 ""). left. by rewrite Hspeech.
    + calls_simpl. intros H. apply (Hshape w1 ""). left. by rewrite Hspeech.
  - destruct (file_uploader ui) as [uploaded|];
      [destruct (button_transcribe_mp3 ui)|].
    + cbn [s_files st_write].
      destruct (transcribe_mp3 w2 uploaded api language fs) as [[text'|e'] st'] eqn:Hmp3;
        calls_simpl; intros H;
        apply (Hshape w2 uploaded); right; exists fs; by rewrite Hmp3.
    + calls_simpl. by intros []%elem_of_nil.
    + calls_simpl. by intros []%elem_of_nil.
Qed.

Lemma main_calls_menu_backends_witness :
  backend_of (recognize_sphinx clip) ∈ SUPPORTED_APIS.*2 /\
  (forall tag, language_of (recognize_sphinx clip) = Some tag ->
     tag ∈ SUPPORTED_LANGUAGES.*2).
Proof.
  apply (main_calls_menu_backends (studio (hears "bonjour")) (studio (hears "bonjour"))
           visitor ∅ ∅ (recognize_sphinx clip) offered_visitor).
  vm_compute. do 4 right. left.
Defined.
